(** * Plugin signature validation (pkg/plugins/manager/signature/signature.go)

    A shallow embedding of [Validator.Validate] and [Validator.allowUnsigned].

    Go pointers to plugin descriptors are modelled by an explicit store: a
    [*plugins.Plugin] is [nil] or a location of a finite map from locations
    to descriptors, so that the assignment of the parent's signature fields
    to the child is a store update that every holder of the pointer sees.
    The code runs in a small state monad over that store and the logger's
    output; a nil dereference is a panic, which keeps the state reached. *)

From stdpp Require Import gmap strings list fin_maps.

Open Scope string_scope.

(** ** Package [plugins] *)

Module plugins.

(** Modelled from the spec: package [plugins] is not part of the sources
    at hand.  [SignatureStatus] is a string type there; the spec lists
    the statuses Valid, Invalid, Modified, Unsigned and Internal, and any
    other value (the zero value, the empty string, among them) is an
    unrecognized status. *)
Definition SignatureStatus := string.
Definition SignatureInternal : SignatureStatus := "internal".
Definition SignatureValid : SignatureStatus := "valid".
Definition SignatureInvalid : SignatureStatus := "invalid".
Definition SignatureModified : SignatureStatus := "modified".
Definition SignatureUnsigned : SignatureStatus := "unsigned".

Definition SignatureType := string.

(** The address of an allocated descriptor; a pointer is [None] (nil) or
    [Some] location. *)
Definition loc := positive.
Abbreviation ptr := (option loc).
Abbreviation nil := (@None loc).

(** Modelled from the spec: the plugin descriptor, with the fields that
    the validator reads or writes: the unique ID, the directory (for
    diagnostics), the two classification flags, the signature status,
    type and organisation, and the optional link to the parent. *)
Record Plugin := mkPlugin {
  ID : string;
  PluginDir : string;
  isCore : bool;
  isBundled : bool;
  Signature : SignatureStatus;
  SignatureType_ : SignatureType;
  SignatureOrg : string;
  Parent : ptr
}.

(** [&plugins.PluginSignatureError{PluginID: .., SignatureStatus: ..}];
    a field left out of the literal holds the zero value [""]. *)
Record PluginSignatureError := mkPluginSignatureError {
  PluginID : string;
  SignatureStatus_ : SignatureStatus
}.

(** Field assignments [p.Signature = v], [p.SignatureType = v] and
    [p.SignatureOrg = v] on a descriptor value. *)
Definition set_Signature (v : SignatureStatus) (p : Plugin) : Plugin :=
  mkPlugin (ID p) (PluginDir p) (isCore p) (isBundled p)
           v (SignatureType_ p) (SignatureOrg p) (Parent p).
Definition set_SignatureType (v : SignatureType) (p : Plugin) : Plugin :=
  mkPlugin (ID p) (PluginDir p) (isCore p) (isBundled p)
           (Signature p) v (SignatureOrg p) (Parent p).
Definition set_SignatureOrg (v : string) (p : Plugin) : Plugin :=
  mkPlugin (ID p) (PluginDir p) (isCore p) (isBundled p)
           (Signature p) (SignatureType_ p) v (Parent p).

End plugins.

(** ** Package [setting] *)

Module setting.

(** Modelled from the spec: the environment mode that relaxes the policy
    is "development". *)
Definition Dev : string := "development".

(** The two fields of [setting.Cfg] that the validator reads. *)
Record Cfg := mkCfg {
  Env : string;
  PluginsAllowUnsigned : list string
}.

End setting.

(** ** Package [log] *)

Module log.

Inductive Level := LvlDebug | LvlWarn.

(** One line of the logger: its level and message.  The key/value
    context of a line is not recorded. *)
Record Entry := mkEntry { level : Level; message : string }.

End log.

(** ** The state monad of the embedding *)

Import plugins.

Record State := mkState {
  heap : gmap loc Plugin;
  logs : list log.Entry
}.

Inductive Outcome (A : Type) : Type :=
| Panic (st : State)
| Done (a : A) (st : State).
Arguments Panic {A} st.
Arguments Done {A} a st.

Definition Go (A : Type) : Type := State → Outcome A.

Definition ret {A} (a : A) : Go A := λ st, Done a st.
Definition bind {A B} (m : Go A) (k : A → Go B) : Go B := λ st,
  match m st with
  | Panic st' => Panic st'
  | Done a st' => k a st'
  end.

Declare Scope go_scope.
Delimit Scope go_scope with go.
Bind Scope go_scope with Go.
Notation "'let!' x := m 'in' k" := (bind m (λ x, k))
  (at level 10, x name, m at level 100, k at level 200,
   format "'[v' 'let!'  x  :=  m  'in' '/' k ']'") : go_scope.
Notation "m ;; k" := (bind m (λ _, k))
  (at level 100, k at level 200, right associativity) : go_scope.
Open Scope go_scope.

(** The state in which a run ends, and the value it returns (if any). *)
Definition final {A} (o : Outcome A) : State :=
  match o with Panic st => st | Done _ st => st end.
Definition returned {A} (o : Outcome A) : option A :=
  match o with Panic _ => None | Done a _ => Some a end.

(** [*p]: reading through a pointer. *)
Definition deref (p : ptr) : Go Plugin := λ st,
  match p with
  | None => Panic st
  | Some l => match heap st !! l with
              | Some d => Done d st
              | None => Panic st
              end
  end.

(** [*p = d]: writing through a pointer. *)
Definition store (p : ptr) (d : Plugin) : Go unit := λ st,
  match p with
  | None => Panic st
  | Some l => match heap st !! l with
              | Some _ => Done tt (mkState (<[l := d]> (heap st)) (logs st))
              | None => Panic st
              end
  end.

Definition emit (lv : log.Level) (msg : string) : Go unit := λ st,
  Done tt (mkState (heap st) (logs st ++ [log.mkEntry lv msg])).

Module logger.
Definition Debug (msg : string) : Go unit := emit log.LvlDebug msg.
Definition Warn (msg : string) : Go unit := emit log.LvlWarn msg.
End logger.

(** Modelled from the spec: the methods [IsCorePlugin] and
    [IsBundledPlugin] of [*plugins.Plugin] read the classification of the
    descriptor. *)
Definition IsCorePlugin (plugin : ptr) : Go bool :=
  let! p := deref plugin in ret (isCore p).
Definition IsBundledPlugin (plugin : ptr) : Go bool :=
  let! p := deref plugin in ret (isBundled p).

(** [plugin.Signature == v] *)
Definition Signature_is (plugin : ptr) (v : SignatureStatus) : Go bool :=
  let! p := deref plugin in ret (bool_decide (Signature p = v)).

(** Go's [a || b]: [b] is evaluated only when [a] is false. *)
Definition or_else (a b : Go bool) : Go bool :=
  let! x := a in if x then ret true else b.

(** ** Package [signature] *)

Module signature.

(** [func(plugin *plugins.Plugin) bool].  Modelling assumption: the
    predicate is pure and total.  It reads the store through the pointer it
    is given and answers; it writes nothing, keeps no state of its own and
    does not panic.  A Go closure of this type could do each of these, and
    what is proved of a validator with a predicate holds for predicates
    that do none of them. *)
Definition UnsignedPluginConditionFunc : Type := ptr → gmap loc Plugin → bool.

Record Validator := mkValidator {
  cfg : option setting.Cfg;
  allowUnsignedPluginsCondition : option UnsignedPluginConditionFunc
}.

Definition NewValidator (cfg : option setting.Cfg)
    (unsignedCond : option UnsignedPluginConditionFunc) : Validator :=
  mkValidator cfg unsignedCond.

(** [s.allowUnsignedPluginsCondition(plugin)], line 89, for a predicate
    under the assumption above: the call returns the answer and hands the
    state back as it was. *)
Definition call (f : UnsignedPluginConditionFunc) (plugin : ptr) : Go bool :=
  λ st, Done (f plugin (heap st)) st.

(** [s.cfg.X]: the configuration is held by pointer. *)
Definition deref_cfg (c : option setting.Cfg) : Go setting.Cfg := λ st,
  match c with
  | None => Panic st
  | Some c => Done c st
  end.

(** [for _, plug := range s.cfg.PluginsAllowUnsigned { if plug == plugin.ID
    { return true } }; return false] *)
Fixpoint allowUnsigned_range (l : list string) (plugin : ptr) : Go bool :=
  match l with
  | [] => ret false
  | plug :: rest =>
      let! p := deref plugin in
      if bool_decide (plug = ID p) then ret true
      else allowUnsigned_range rest plugin
  end.

Definition allowUnsigned (s : Validator) (plugin : ptr) : Go bool :=
  match allowUnsignedPluginsCondition s with
  | Some cond => call cond plugin
  | None =>
      let! c := deref_cfg (cfg s) in
      if bool_decide (setting.Env c = setting.Dev) then ret true
      else
        let! c := deref_cfg (cfg s) in
        allowUnsigned_range (setting.PluginsAllowUnsigned c) plugin
  end.

(** Lines 51 to 84 of [Validate]: the core/bundled override and the
    switch on the status. *)
Definition Validate_policy (s : Validator) (plugin : ptr)
    : Go (option PluginSignatureError) :=
  let! trusted := or_else (IsCorePlugin plugin) (IsBundledPlugin plugin) in
  if trusted then ret None
  else
    let! p := deref plugin in
    if bool_decide (Signature p = SignatureUnsigned) then
      let! allowed := allowUnsigned s plugin in
      if negb allowed then
        logger.Debug "Plugin is unsigned";;
        let! p := deref plugin in
        ret (Some (mkPluginSignatureError (ID p) SignatureUnsigned))
      else
        logger.Warn "Running an unsigned plugin";;
        ret None
    else if bool_decide (Signature p = SignatureInvalid) then
      logger.Debug "Plugin has an invalid signature";;
      let! p := deref plugin in
      ret (Some (mkPluginSignatureError (ID p) SignatureInvalid))
    else if bool_decide (Signature p = SignatureModified) then
      logger.Debug "Plugin has a modified signature";;
      let! p := deref plugin in
      ret (Some (mkPluginSignatureError (ID p) SignatureModified))
    else
      logger.Debug "Plugin has an unrecognized plugin signature state";;
      let! p := deref plugin in
      ret (Some (mkPluginSignatureError (ID p) "")).

(** Lines 41 to 43: the three assignments from [plugin.Parent]. *)
Definition inherit_Signature (plugin : ptr) : Go unit :=
  let! p := deref plugin in let! par := deref (Parent p) in
  store plugin (set_Signature (Signature par) p).
Definition inherit_SignatureType (plugin : ptr) : Go unit :=
  let! p := deref plugin in let! par := deref (Parent p) in
  store plugin (set_SignatureType (SignatureType_ par) p).
Definition inherit_SignatureOrg (plugin : ptr) : Go unit :=
  let! p := deref plugin in let! par := deref (Parent p) in
  store plugin (set_SignatureOrg (SignatureOrg par) p).

Definition Validate (s : Validator) (plugin : ptr)
    : Go (option PluginSignatureError) :=
  let! p := deref plugin in
  if bool_decide (Signature p = SignatureValid) then
    logger.Debug "Plugin has valid signature";;
    ret None
  else if bool_decide (Parent p ≠ nil) then
    let! own := or_else (IsCorePlugin plugin) (Signature_is plugin SignatureInternal) in
    if own then
      logger.Debug "Not setting descendant plugin's signature to that of root since it's core or internal";;
      Validate_policy s plugin
    else
      deref (Parent p);;
      logger.Debug "Setting descendant plugin's signature to that of root";;
      inherit_Signature plugin;;
      inherit_SignatureType plugin;;
      inherit_SignatureOrg plugin;;
      let! p := deref plugin in
      if bool_decide (Signature p = SignatureValid) then
        logger.Debug "Plugin has valid signature (inherited from root)";;
        ret None
      else Validate_policy s plugin
  else Validate_policy s plugin.

End signature.

Import signature.

(** ** Vocabulary of the statements *)

(** The state after one more line of log. *)
Definition logged (st : State) (lv : log.Level) (msg : string) : State :=
  mkState (heap st) (logs st ++ [log.mkEntry lv msg]).

(** The parent link of the descriptor at [l], when there is one, points to
    an allocated descriptor: Go has no dangling pointers. *)
Definition parent_live (h : gmap loc Plugin) (l : loc) : Prop :=
  match h !! l with
  | Some p => match Parent p with
              | Some q => is_Some (h !! q)
              | None => True
              end
  | None => True
  end.

(** An operation that leaves the store alone. *)
Definition preserves_heap {A} (m : Go A) : Prop :=
  ∀ st, heap (final (m st)) = heap st.

(** The descriptor [d] once the three assignments from its parent [par]
    have run. *)
Definition inherited (par d : Plugin) : Plugin :=
  set_SignatureOrg (SignatureOrg par)
    (set_SignatureType (SignatureType_ par)
       (set_Signature (Signature par) d)).

(** The debug lines of lines 28 to 49. *)
Definition msg_valid : string := "Plugin has valid signature".
Definition msg_own : string :=
  "Not setting descendant plugin's signature to that of root since it's core or internal".
Definition msg_inherit : string :=
  "Setting descendant plugin's signature to that of root".
Definition msg_inherited_valid : string :=
  "Plugin has valid signature (inherited from root)".

(** Two runs agree on the value returned and on the store they leave;
    an operation is blind to the log when runs from equal stores agree. *)
Definition same_run {A} (o1 o2 : Outcome A) : Prop :=
  returned o1 = returned o2 ∧ heap (final o1) = heap (final o2).

Definition log_blind {A} (m : Go A) : Prop :=
  ∀ st1 st2, heap st1 = heap st2 → same_run (m st1) (m st2).

(** The answer of [allowUnsigned] for the descriptor [d] at [l] in the
    store [h], in closed form: the predicate's answer when there is one,
    else development mode or membership in the allow-list; [None] when
    there is neither a predicate nor a configuration. *)
Definition allowance (s : Validator) (l : loc) (h : gmap loc Plugin) (d : Plugin)
    : option bool :=
  match allowUnsignedPluginsCondition s with
  | Some cond => Some (cond (Some l) h)
  | None =>
      match cfg s with
      | Some c => Some (bool_decide (setting.Env c = setting.Dev)
                        || bool_decide (ID d ∈ setting.PluginsAllowUnsigned c))
      | None => None
      end
  end.

(** The line that a run of an unsigned plugin leaves in the log. *)
Definition warn_unsigned : log.Entry :=
  log.mkEntry log.LvlWarn "Running an unsigned plugin".

(** The run of lines 51 to 84 on the descriptor [d] at [l], in closed
    form. *)
Definition policy_outcome (s : Validator) (l : loc) (st : State) (d : Plugin)
    : Outcome (option PluginSignatureError) :=
  if isCore d || isBundled d then Done None st
  else if bool_decide (Signature d = SignatureUnsigned) then
    match allowance s l (heap st) d with
    | None => Panic st
    | Some true => Done None (logged st log.LvlWarn "Running an unsigned plugin")
    | Some false =>
        Done (Some (mkPluginSignatureError (ID d) SignatureUnsigned))
             (logged st log.LvlDebug "Plugin is unsigned")
    end
  else if bool_decide (Signature d = SignatureInvalid) then
    Done (Some (mkPluginSignatureError (ID d) SignatureInvalid))
         (logged st log.LvlDebug "Plugin has an invalid signature")
  else if bool_decide (Signature d = SignatureModified) then
    Done (Some (mkPluginSignatureError (ID d) SignatureModified))
         (logged st log.LvlDebug "Plugin has a modified signature")
  else
    Done (Some (mkPluginSignatureError (ID d) ""))
         (logged st log.LvlDebug "Plugin has an unrecognized plugin signature state").

(** The run of [Validate] on the location [l], in closed form. *)
Definition Validate_outcome (s : Validator) (l : loc) (st : State)
    : Outcome (option PluginSignatureError) :=
  match heap st !! l with
  | None => Panic st
  | Some d =>
      if bool_decide (Signature d = SignatureValid) then
        Done None (logged st log.LvlDebug msg_valid)
      else
        match Parent d with
        | None => policy_outcome s l st d
        | Some q =>
            if isCore d || bool_decide (Signature d = SignatureInternal) then
              policy_outcome s l (logged st log.LvlDebug msg_own) d
            else
              match heap st !! q with
              | None => Panic st
              | Some par =>
                  let st' := mkState (<[l := inherited par d]> (heap st))
                               (logs st ++ [log.mkEntry log.LvlDebug msg_inherit]) in
                  if bool_decide (Signature par = SignatureValid) then
                    Done None (logged st' log.LvlDebug msg_inherited_valid)
                  else policy_outcome s l st' (inherited par d)
              end
        end
  end.

(** The unsigned plugin [d] at [l] may run under the validator [s]. *)
Definition unsigned_allowed (s : Validator) (l : loc) (h : gmap loc Plugin)
    (d : Plugin) : Prop :=
  allowance s l h d = Some true.

(** Three plugins in a line: a root at 1, its child at 2 and the child's
    child at 3. *)
Definition chain (r child grandchild : Plugin) : State :=
  mkState (<[3%positive := grandchild]>
             (<[2%positive := child]> {[1%positive := r]})) [].

(** The fields of a descriptor without its parent link. *)
Definition detach (d : Plugin) : Plugin :=
  mkPlugin (ID d) (PluginDir d) (isCore d) (isBundled d)
           (Signature d) (SignatureType_ d) (SignatureOrg d) None.

(** The input of a call on [l] as a value free of addresses: the fields of
    the plugin's descriptor and, when it has a parent link, the fields of
    the parent's descriptor ([Some None] for a link that dangles). *)
Definition input_of (h : gmap loc Plugin) (l : loc)
    : option (Plugin * option (option Plugin)) :=
  match h !! l with
  | Some d => Some (detach d,
                    match Parent d with
                    | Some q => Some (detach <$> h !! q)
                    | None => None
                    end)
  | None => None
  end.

(** A predicate whose answer is a function of that input: it depends on
    nothing but the fields of the plugin and of its parent. *)
Definition reads_input_only (f : UnsignedPluginConditionFunc) : Prop :=
  ∀ l1 h1 l2 h2, input_of h1 l1 = input_of h2 l2 → f (Some l1) h1 = f (Some l2) h2.

(** ** Sample stores *)

Module Samples.
(** A root plugin at location 1 and a nested plugin at location 2. *)
Definition plugin (id : string) (core bundled : bool) (sig : SignatureStatus)
    (parent : ptr) : Plugin :=
  mkPlugin id ("/var/lib/plugins/" ++ id) core bundled sig "" "" parent.

Definition root (sig : SignatureStatus) : Plugin :=
  mkPlugin "root" "/var/lib/plugins/root" false false sig "grafana" "Grafana Labs" None.

Definition tree (r child : Plugin) : State :=
  mkState (<[2%positive := child]> {[1%positive := r]}) [].

Definition single (p : Plugin) : State := mkState {[1%positive := p]} [].

Definition production (allow : list string) : option setting.Cfg :=
  Some (setting.mkCfg "production" allow).
Definition development : option setting.Cfg :=
  Some (setting.mkCfg "development" []).

Definition strict : Validator := NewValidator (production []) None.
End Samples.

(** ** Running the monad *)

Section Run.
Context {A B : Type}.
Implicit Types (k : A → Go B) (st : State).

Lemma run_ret (a : A) k st : bind (ret a) k st = k a st.
Proof. reflexivity. Qed.

Lemma run_bind {C} (m : Go C) (f : C → Go A) k st :
  bind (bind m f) k st = bind m (λ x, bind (f x) k) st.
Proof. unfold bind. destruct (m st); reflexivity. Qed.

Lemma run_Done (m : Go A) k st a st' :
  m st = Done a st' → bind m k st = k a st'.
Proof. unfold bind. intros ->. reflexivity. Qed.

Lemma run_Panic (m : Go A) k st st' :
  m st = Panic st' → bind m k st = Panic st'.
Proof. unfold bind. intros ->. reflexivity. Qed.
End Run.

Lemma deref_Some l d st : heap st !! l = Some d → deref (Some l) st = Done d st.
Proof. unfold deref. intros ->. reflexivity. Qed.

Lemma deref_None l st : heap st !! l = None → deref (Some l) st = Panic st.
Proof. unfold deref. intros ->. reflexivity. Qed.

Lemma store_Some l d d' st :
  heap st !! l = Some d →
  store (Some l) d' st = Done tt (mkState (<[l := d']> (heap st)) (logs st)).
Proof. unfold store. intros ->. reflexivity. Qed.

Lemma emit_Done lv msg st : emit lv msg st = Done tt (logged st lv msg).
Proof. reflexivity. Qed.

Lemma IsCorePlugin_Some l d st :
  heap st !! l = Some d → IsCorePlugin (Some l) st = Done (isCore d) st.
Proof. intros H. unfold IsCorePlugin. rewrite (run_Done _ _ _ _ _ (deref_Some _ _ _ H)). reflexivity. Qed.

Lemma IsBundledPlugin_Some l d st :
  heap st !! l = Some d → IsBundledPlugin (Some l) st = Done (isBundled d) st.
Proof. intros H. unfold IsBundledPlugin. rewrite (run_Done _ _ _ _ _ (deref_Some _ _ _ H)). reflexivity. Qed.

Lemma Signature_is_Some l d v st :
  heap st !! l = Some d →
  Signature_is (Some l) v st = Done (bool_decide (Signature d = v)) st.
Proof. intros H. unfold Signature_is. rewrite (run_Done _ _ _ _ _ (deref_Some _ _ _ H)). reflexivity. Qed.

Lemma or_else_Done (a b : Go bool) st x y :
  a st = Done x st → b st = Done y st → or_else a b st = Done (x || y) st.
Proof.
  intros Ha Hb. unfold or_else. rewrite (run_Done _ _ _ _ _ Ha).
  destruct x; [reflexivity | exact Hb].
Qed.

(** The range loop over the allow-list is a membership test. *)
Lemma allowUnsigned_range_Some ids l d st :
  heap st !! l = Some d →
  allowUnsigned_range ids (Some l) st = Done (bool_decide (ID d ∈ ids)) st.
Proof.
  intros H. induction ids as [|plug rest IH]; simpl.
  - reflexivity.
  - rewrite (run_Done _ _ _ _ _ (deref_Some _ _ _ H)).
    destruct (decide (plug = ID d)) as [Hplug|Hplug].
    + rewrite (bool_decide_eq_true_2 _ Hplug). subst plug. unfold ret. f_equal.
      symmetry. apply bool_decide_eq_true_2, list_elem_of_here.
    + rewrite (bool_decide_eq_false_2 _ Hplug), IH. f_equal.
      apply bool_decide_ext. rewrite elem_of_cons. intuition congruence.
Qed.

(** ** Operations that leave the store alone *)

Create HintDb frame.

Lemma preserves_ret {A} (a : A) : preserves_heap (ret a).
Proof. intros st. reflexivity. Qed.

Lemma preserves_bind {A B} (m : Go A) (k : A → Go B) :
  preserves_heap m → (∀ a, preserves_heap (k a)) → preserves_heap (bind m k).
Proof.
  intros Hm Hk st. unfold bind. specialize (Hm st).
  destruct (m st) as [st'|a st']; simpl in *; [exact Hm|].
  rewrite Hk. exact Hm.
Qed.

Lemma preserves_if {A} (b : bool) (m1 m2 : Go A) :
  preserves_heap m1 → preserves_heap m2 → preserves_heap (if b then m1 else m2).
Proof. destruct b; auto. Qed.

Lemma preserves_deref p : preserves_heap (deref p).
Proof. intros st. unfold deref. destruct p as [l|]; [destruct (heap st !! l)|]; reflexivity. Qed.

Lemma preserves_emit lv msg : preserves_heap (emit lv msg).
Proof. intros st. reflexivity. Qed.

Lemma preserves_call f p : preserves_heap (call f p).
Proof. intros st. reflexivity. Qed.

Lemma preserves_deref_cfg c : preserves_heap (deref_cfg c).
Proof. intros st. destruct c; reflexivity. Qed.

#[global] Hint Resolve preserves_ret preserves_bind preserves_if preserves_deref
  preserves_emit preserves_call preserves_deref_cfg : frame.

Lemma preserves_allowUnsigned_range ids p : preserves_heap (allowUnsigned_range ids p).
Proof. induction ids; simpl; auto with frame. Qed.

Lemma preserves_allowUnsigned s p : preserves_heap (allowUnsigned s p).
Proof.
  unfold allowUnsigned. destruct (allowUnsignedPluginsCondition s);
    auto 10 using preserves_allowUnsigned_range with frame.
Qed.

Lemma preserves_Validate_policy s p : preserves_heap (Validate_policy s p).
Proof.
  unfold Validate_policy, or_else, IsCorePlugin, IsBundledPlugin, logger.Debug, logger.Warn.
  repeat first
    [ apply preserves_bind; [|intros ?]
    | apply preserves_if
    | apply preserves_allowUnsigned
    | solve [auto with frame] ].
Qed.

(** ** The policy after inheritance (lines 51 to 84) *)

Section Policy.
Variables (s : Validator) (l : loc) (st : State) (d : Plugin).
Hypothesis Hd : heap st !! l = Some d.

Lemma trusted_Done :
  or_else (IsCorePlugin (Some l)) (IsBundledPlugin (Some l)) st
  = Done (isCore d || isBundled d) st.
Proof.
  apply or_else_Done; [apply IsCorePlugin_Some | apply IsBundledPlugin_Some]; exact Hd.
Qed.

Lemma Validate_policy_trusted :
  isCore d || isBundled d = true → Validate_policy s (Some l) st = Done None st.
Proof.
  intros Ht. unfold Validate_policy. rewrite (run_Done _ _ _ _ _ trusted_Done), Ht.
  reflexivity.
Qed.

Lemma allowUnsigned_cond f :
  allowUnsignedPluginsCondition s = Some f →
  allowUnsigned s (Some l) st = Done (f (Some l) (heap st)) st.
Proof. intros Hf. unfold allowUnsigned. rewrite Hf. reflexivity. Qed.

Lemma allowUnsigned_default c :
  allowUnsignedPluginsCondition s = None → cfg s = Some c →
  allowUnsigned s (Some l) st
  = Done (bool_decide (setting.Env c = setting.Dev)
          || bool_decide (ID d ∈ setting.PluginsAllowUnsigned c)) st.
Proof.
  intros Hf Hc. unfold allowUnsigned. rewrite Hf, Hc. unfold deref_cfg at 1.
  rewrite run_ret. destruct (bool_decide (setting.Env c = setting.Dev)); [reflexivity|].
  unfold deref_cfg. rewrite run_ret. apply allowUnsigned_range_Some, Hd.
Qed.

Lemma allowUnsigned_nil_cfg :
  allowUnsignedPluginsCondition s = None → cfg s = None →
  allowUnsigned s (Some l) st = Panic st.
Proof. intros Hf Hc. unfold allowUnsigned. rewrite Hf, Hc. reflexivity. Qed.

Hypothesis Hu : isCore d || isBundled d = false.

Lemma Validate_policy_switch :
  Validate_policy s (Some l) st =
  (if bool_decide (Signature d = SignatureUnsigned) then
     let! allowed := allowUnsigned s (Some l) in
     if negb allowed then
       logger.Debug "Plugin is unsigned";;
       ret (Some (mkPluginSignatureError (ID d) SignatureUnsigned))
     else logger.Warn "Running an unsigned plugin";; ret None
   else if bool_decide (Signature d = SignatureInvalid) then
     logger.Debug "Plugin has an invalid signature";;
     ret (Some (mkPluginSignatureError (ID d) SignatureInvalid))
   else if bool_decide (Signature d = SignatureModified) then
     logger.Debug "Plugin has a modified signature";;
     ret (Some (mkPluginSignatureError (ID d) SignatureModified))
   else
     logger.Debug "Plugin has an unrecognized plugin signature state";;
     ret (Some (mkPluginSignatureError (ID d) ""))) st.
Proof.
  unfold Validate_policy, logger.Debug, logger.Warn.
  rewrite (run_Done _ _ _ _ _ trusted_Done), Hu.
  rewrite (run_Done _ _ _ _ _ (deref_Some _ _ _ Hd)).
  assert (Hlog : ∀ A lv msg (k : Plugin → Go A) st',
             heap st' = heap st →
             (emit lv msg;; let! p := deref (Some l) in k p) st'
             = (emit lv msg;; k d) st').
  { intros A lv msg k st' Hh. rewrite !(run_Done _ _ _ _ _ (emit_Done _ _ _)).
    apply run_Done, deref_Some. simpl. rewrite Hh. exact Hd. }
  repeat case_bool_decide; try (apply Hlog; reflexivity).
  pose proof (preserves_allowUnsigned s (Some l) st) as Hh.
  destruct (allowUnsigned s (Some l) st) as [st'|allowed st'] eqn:Ha.
  - rewrite !(run_Panic _ _ _ _ Ha). reflexivity.
  - rewrite !(run_Done _ _ _ _ _ Ha). destruct allowed; [reflexivity|].
    apply Hlog, Hh.
Qed.

Lemma Validate_policy_unsigned allowed :
  Signature d = SignatureUnsigned →
  allowUnsigned s (Some l) st = Done allowed st →
  Validate_policy s (Some l) st =
  if allowed then Done None (logged st log.LvlWarn "Running an unsigned plugin")
  else Done (Some (mkPluginSignatureError (ID d) SignatureUnsigned))
            (logged st log.LvlDebug "Plugin is unsigned").
Proof.
  intros Hs Ha. rewrite Validate_policy_switch, bool_decide_eq_true_2 by exact Hs.
  rewrite (run_Done _ _ _ _ _ Ha). destruct allowed; reflexivity.
Qed.

Lemma Validate_policy_invalid :
  Signature d = SignatureInvalid →
  Validate_policy s (Some l) st =
  Done (Some (mkPluginSignatureError (ID d) SignatureInvalid))
       (logged st log.LvlDebug "Plugin has an invalid signature").
Proof.
  intros Hs. rewrite Validate_policy_switch, Hs. reflexivity.
Qed.

Lemma Validate_policy_modified :
  Signature d = SignatureModified →
  Validate_policy s (Some l) st =
  Done (Some (mkPluginSignatureError (ID d) SignatureModified))
       (logged st log.LvlDebug "Plugin has a modified signature").
Proof.
  intros Hs. rewrite Validate_policy_switch, Hs. reflexivity.
Qed.

Lemma Validate_policy_default :
  Signature d ≠ SignatureUnsigned → Signature d ≠ SignatureInvalid →
  Signature d ≠ SignatureModified →
  Validate_policy s (Some l) st =
  Done (Some (mkPluginSignatureError (ID d) ""))
       (logged st log.LvlDebug "Plugin has an unrecognized plugin signature state").
Proof.
  intros H1 H2 H3. rewrite Validate_policy_switch.
  rewrite !bool_decide_eq_false_2 by assumption. reflexivity.
Qed.
End Policy.

(** ** Inheritance (lines 34 to 49) *)

Section Inherit.
Variables (l q : loc) (d par : Plugin).
Hypothesis Hq : Parent d = Some q.

(** One assignment [plugin.F = plugin.Parent.F]: [d'] is the descriptor
    as it stands and [par'] the parent as it stands (the same descriptor
    when the plugin is its own parent). *)
Lemma inherit_Signature_Done st :
  heap st !! l = Some d → heap st !! q = Some par →
  inherit_Signature (Some l) st
  = Done tt (mkState (<[l := set_Signature (Signature par) d]> (heap st)) (logs st)).
Proof.
  intros Hl Hp. unfold inherit_Signature.
  rewrite (run_Done _ _ _ _ _ (deref_Some _ _ _ Hl)), Hq.
  rewrite (run_Done _ _ _ _ _ (deref_Some _ _ _ Hp)).
  apply (store_Some _ _ _ _ Hl).
Qed.

Lemma inherit_SignatureType_Done st d' par' :
  heap st !! l = Some d' → Parent d' = Some q → heap st !! q = Some par' →
  inherit_SignatureType (Some l) st
  = Done tt (mkState (<[l := set_SignatureType (SignatureType_ par') d']> (heap st))
                     (logs st)).
Proof.
  intros Hl Hq' Hp. unfold inherit_SignatureType.
  rewrite (run_Done _ _ _ _ _ (deref_Some _ _ _ Hl)), Hq'.
  rewrite (run_Done _ _ _ _ _ (deref_Some _ _ _ Hp)).
  apply (store_Some _ _ _ _ Hl).
Qed.

Lemma inherit_SignatureOrg_Done st d' par' :
  heap st !! l = Some d' → Parent d' = Some q → heap st !! q = Some par' →
  inherit_SignatureOrg (Some l) st
  = Done tt (mkState (<[l := set_SignatureOrg (SignatureOrg par') d']> (heap st))
                     (logs st)).
Proof.
  intros Hl Hq' Hp. unfold inherit_SignatureOrg.
  rewrite (run_Done _ _ _ _ _ (deref_Some _ _ _ Hl)), Hq'.
  rewrite (run_Done _ _ _ _ _ (deref_Some _ _ _ Hp)).
  apply (store_Some _ _ _ _ Hl).
Qed.

(** The three assignments in sequence, whether or not the parent link
    points back at the plugin itself. *)
Lemma inherit_all_Done {A} (k : Go A) st :
  heap st !! l = Some d → heap st !! q = Some par →
  (inherit_Signature (Some l);; inherit_SignatureType (Some l);;
   inherit_SignatureOrg (Some l);; k) st
  = k (mkState (<[l := inherited par d]> (heap st)) (logs st)).
Proof.
  intros Hl Hp.
  rewrite (run_Done _ _ _ _ _ (inherit_Signature_Done _ Hl Hp)).
  set (d1 := set_Signature (Signature par) d).
  assert (∃ par1, <[l := d1]> (heap st) !! q = Some par1
                  ∧ SignatureType_ par1 = SignatureType_ par
                  ∧ SignatureOrg par1 = SignatureOrg par) as (par1 & Hp1 & Ht1 & Ho1).
  { destruct (decide (l = q)) as [<-|Hne].
    - exists d1. rewrite lookup_insert_eq. rewrite Hl in Hp.
      injection Hp as <-. auto.
    - exists par. rewrite lookup_insert_ne by exact Hne. auto. }
  erewrite run_Done; last first.
  { apply (inherit_SignatureType_Done _ d1 par1); simpl;
      [apply lookup_insert_eq | exact Hq | exact Hp1]. }
  simpl. rewrite insert_insert_eq, Ht1.
  set (d2 := set_SignatureType (SignatureType_ par) d1).
  assert (∃ par2, <[l := d2]> (heap st) !! q = Some par2
                  ∧ SignatureOrg par2 = SignatureOrg par) as (par2 & Hp2 & Ho2).
  { destruct (decide (l = q)) as [<-|Hne].
    - exists d2. rewrite lookup_insert_eq. rewrite Hl in Hp.
      injection Hp as <-. auto.
    - exists par. rewrite lookup_insert_ne by exact Hne. auto. }
  erewrite run_Done; last first.
  { apply (inherit_SignatureOrg_Done _ d2 par2); simpl;
      [apply lookup_insert_eq | exact Hq | exact Hp2]. }
  simpl. rewrite insert_insert_eq, Ho2. reflexivity.
Qed.
End Inherit.

(** ** The four ways through [Validate] *)

Section Paths.
Variables (s : Validator) (l : loc) (st : State) (d : Plugin).
Hypothesis Hd : heap st !! l = Some d.

(** Lines 28 to 31. *)
Lemma Validate_valid :
  Signature d = SignatureValid →
  Validate s (Some l) st = Done None (logged st log.LvlDebug msg_valid).
Proof.
  intros Hs. unfold Validate.
  rewrite (run_Done _ _ _ _ _ (deref_Some _ _ _ Hd)).
  rewrite bool_decide_eq_true_2 by exact Hs. reflexivity.
Qed.

Hypothesis Hnv : Signature d ≠ SignatureValid.

(** No parent: straight to line 51. *)
Lemma Validate_orphan :
  Parent d = None → Validate s (Some l) st = Validate_policy s (Some l) st.
Proof.
  intros Hp. unfold Validate.
  rewrite (run_Done _ _ _ _ _ (deref_Some _ _ _ Hd)).
  rewrite bool_decide_eq_false_2 by exact Hnv.
  rewrite Hp, bool_decide_eq_false_2 by auto. reflexivity.
Qed.

(** Lines 35 to 37: a core or internal descendant keeps its own
    signature. *)
Lemma Validate_own q :
  Parent d = Some q →
  isCore d || bool_decide (Signature d = SignatureInternal) = true →
  Validate s (Some l) st
  = Validate_policy s (Some l) (logged st log.LvlDebug msg_own).
Proof.
  intros Hp Hown. unfold Validate.
  rewrite (run_Done _ _ _ _ _ (deref_Some _ _ _ Hd)).
  rewrite bool_decide_eq_false_2 by exact Hnv.
  rewrite Hp, bool_decide_eq_true_2 by discriminate.
  erewrite run_Done; last first.
  { apply or_else_Done; [apply IsCorePlugin_Some | apply Signature_is_Some]; exact Hd. }
  rewrite Hown. reflexivity.
Qed.

(** Lines 38 to 48: any other descendant takes the parent's signature. *)
Lemma Validate_inherit q par :
  Parent d = Some q → heap st !! q = Some par →
  isCore d = false → Signature d ≠ SignatureInternal →
  Validate s (Some l) st
  = let st' := mkState (<[l := inherited par d]> (heap st))
                       (logs st ++ [log.mkEntry log.LvlDebug msg_inherit]) in
    if bool_decide (Signature par = SignatureValid)
    then Done None (logged st' log.LvlDebug msg_inherited_valid)
    else Validate_policy s (Some l) st'.
Proof.
  intros Hp Hq Hc Hi. unfold Validate.
  rewrite (run_Done _ _ _ _ _ (deref_Some _ _ _ Hd)).
  rewrite bool_decide_eq_false_2 by exact Hnv.
  rewrite Hp, bool_decide_eq_true_2 by discriminate.
  erewrite run_Done; last first.
  { apply or_else_Done; [apply IsCorePlugin_Some | apply Signature_is_Some]; exact Hd. }
  rewrite Hc, bool_decide_eq_false_2 by exact Hi. change (false || false) with false. cbv iota.
  rewrite (run_Done _ _ _ _ _ (deref_Some _ _ _ Hq)).
  unfold logger.Debug at 1. rewrite (run_Done _ _ _ _ _ (emit_Done _ _ _)).
  rewrite (inherit_all_Done l q d par Hp); [|exact Hd|exact Hq].
  erewrite run_Done; last first.
  { apply deref_Some. simpl. apply lookup_insert_eq. }
  change (Signature (inherited par d)) with (Signature par).
  destruct (bool_decide (Signature par = SignatureValid)); reflexivity.
Qed.

(** A dangling parent link (which Go rules out) stops the run. *)
Lemma Validate_dangling q :
  Parent d = Some q → heap st !! q = None →
  isCore d = false → Signature d ≠ SignatureInternal →
  Validate s (Some l) st = Panic st.
Proof.
  intros Hp Hq Hc Hi. unfold Validate.
  rewrite (run_Done _ _ _ _ _ (deref_Some _ _ _ Hd)).
  rewrite bool_decide_eq_false_2 by exact Hnv.
  rewrite Hp, bool_decide_eq_true_2 by discriminate.
  erewrite run_Done; last first.
  { apply or_else_Done; [apply IsCorePlugin_Some | apply Signature_is_Some]; exact Hd. }
  rewrite Hc, bool_decide_eq_false_2 by exact Hi. change (false || false) with false. cbv iota.
  apply run_Panic, deref_None, Hq.
Qed.
End Paths.

Lemma Validate_nil s st : Validate s nil st = Panic st.
Proof. reflexivity. Qed.

Lemma Validate_unallocated s l st :
  heap st !! l = None → Validate s (Some l) st = Panic st.
Proof. intros H. unfold Validate. apply run_Panic, deref_None, H. Qed.

(** ** The status after inheritance

    The status "after inheritance resolution" of a plugin is the status its
    descriptor holds in the store when [Validate] ends.  When that status is
    not Valid, the run is a run of lines 51 to 84 on that store. *)

Lemma Validate_resolved s l st d' :
  parent_live (heap st) l →
  heap (final (Validate s (Some l) st)) !! l = Some d' →
  Signature d' ≠ SignatureValid →
  ∃ st1, heap st1 !! l = Some d'
         ∧ heap st1 = heap (final (Validate s (Some l) st))
         ∧ Validate s (Some l) st = Validate_policy s (Some l) st1.
Proof.
  unfold parent_live. intros Hlive Hd' Hnv.
  destruct (heap st !! l) as [d|] eqn:Hd.
  2:{ rewrite (Validate_unallocated _ _ _ Hd) in Hd'. simpl in Hd'. congruence. }
  destruct (decide (Signature d = SignatureValid)) as [Hv|Hv].
  { rewrite (Validate_valid s l st d Hd Hv) in Hd'. simpl in Hd'. congruence. }
  destruct (Parent d) as [q|] eqn:Hp.
  - destruct (isCore d || bool_decide (Signature d = SignatureInternal)) eqn:Hown.
    + rewrite (Validate_own s l st d Hd Hv q Hp Hown) in Hd' |- *.
      rewrite preserves_Validate_policy in Hd'. simpl in Hd'.
      exists (logged st log.LvlDebug msg_own).
      rewrite preserves_Validate_policy. auto.
    + apply orb_false_iff in Hown as [Hc Hi]. apply bool_decide_eq_false_1 in Hi.
      destruct Hlive as [par Hq].
      rewrite (Validate_inherit s l st d Hd Hv q par Hp Hq Hc Hi) in Hd' |- *.
      cbv zeta in *. case_bool_decide as Hpv.
      * simpl in Hd'. rewrite lookup_insert_eq in Hd'. injection Hd' as <-.
        contradiction.
      * rewrite preserves_Validate_policy in Hd'. simpl in Hd'.
        exists (mkState (<[l := inherited par d]> (heap st))
                        (logs st ++ [log.mkEntry log.LvlDebug msg_inherit])).
        rewrite preserves_Validate_policy. auto.
  - rewrite (Validate_orphan s l st d Hd Hv Hp) in Hd' |- *.
    rewrite preserves_Validate_policy in Hd'.
    exists st. rewrite preserves_Validate_policy. auto.
Qed.

(** The flags of a descriptor as [orb] sees them. *)
Lemma untrusted d : isCore d = false → isBundled d = false → isCore d || isBundled d = false.
Proof. intros -> ->. reflexivity. Qed.

(** ** Runs from equal stores

    Two runs of the same operation from states that hold the same store,
    whatever has been logged before, return the same value and end with the
    same store. *)

Lemma log_blind_ret {A} (a : A) : log_blind (ret a).
Proof. intros st1 st2 H. split; [reflexivity | exact H]. Qed.

Lemma log_blind_bind {A B} (m : Go A) (k : A → Go B) :
  log_blind m → (∀ a, log_blind (k a)) → log_blind (bind m k).
Proof.
  intros Hm Hk st1 st2 H. unfold bind. destruct (Hm st1 st2 H) as [Hr Hh].
  destruct (m st1) as [s1|a1 s1], (m st2) as [s2|a2 s2]; simpl in *; try discriminate.
  - split; [reflexivity | exact Hh].
  - injection Hr as ->. apply Hk, Hh.
Qed.

Lemma log_blind_if {A} (b : bool) (m1 m2 : Go A) :
  log_blind m1 → log_blind m2 → log_blind (if b then m1 else m2).
Proof. destruct b; auto. Qed.

Lemma log_blind_deref p : log_blind (deref p).
Proof.
  intros st1 st2 H. unfold deref. destruct p as [l|]; [|split; [reflexivity|exact H]].
  rewrite <- H. destruct (heap st1 !! l); split; simpl; auto.
Qed.

Lemma log_blind_store p d : log_blind (store p d).
Proof.
  intros st1 st2 H. unfold store. destruct p as [l|]; [|split; [reflexivity|exact H]].
  rewrite <- H. destruct (heap st1 !! l); split; simpl; auto.
Qed.

Lemma log_blind_emit lv msg : log_blind (emit lv msg).
Proof. intros st1 st2 H. split; [reflexivity | exact H]. Qed.

Lemma log_blind_call f p : log_blind (call f p).
Proof. intros st1 st2 H. unfold call. rewrite H. split; [reflexivity | exact H]. Qed.

Lemma log_blind_deref_cfg c : log_blind (deref_cfg c).
Proof. intros st1 st2 H. destruct c; (split; [reflexivity | exact H]). Qed.

Ltac log_blind_with known :=
  repeat first
    [ known
    | apply log_blind_ret
    | apply log_blind_deref
    | apply log_blind_store
    | apply log_blind_emit
    | apply log_blind_call
    | apply log_blind_deref_cfg
    | apply log_blind_if
    | apply log_blind_bind; [|intros ?] ].

Lemma log_blind_allowUnsigned_range ids p : log_blind (allowUnsigned_range ids p).
Proof. induction ids; simpl; log_blind_with assumption. Qed.

Lemma log_blind_allowUnsigned s p : log_blind (allowUnsigned s p).
Proof.
  unfold allowUnsigned. destruct (allowUnsignedPluginsCondition s);
    log_blind_with ltac:(apply log_blind_allowUnsigned_range).
Qed.

Lemma log_blind_Validate_policy s p : log_blind (Validate_policy s p).
Proof.
  unfold Validate_policy, or_else, IsCorePlugin, IsBundledPlugin, logger.Debug, logger.Warn.
  log_blind_with ltac:(apply log_blind_allowUnsigned).
Qed.

Lemma log_blind_Validate s p : log_blind (Validate s p).
Proof.
  unfold Validate, or_else, IsCorePlugin, Signature_is, inherit_Signature,
    inherit_SignatureType, inherit_SignatureOrg, logger.Debug.
  log_blind_with ltac:(apply log_blind_Validate_policy).
Qed.

(** ** The runs in closed form *)

Lemma allowUnsigned_allowance s l st d :
  heap st !! l = Some d →
  allowUnsigned s (Some l) st
  = match allowance s l (heap st) d with
    | Some b => Done b st
    | None => Panic st
    end.
Proof.
  intros Hd. unfold allowance.
  destruct (allowUnsignedPluginsCondition s) as [cond|] eqn:Hcond.
  - apply (allowUnsigned_cond s l st cond Hcond).
  - destruct (cfg s) as [c|] eqn:Hc.
    + apply (allowUnsigned_default s l st d Hd c Hcond Hc).
    + apply (allowUnsigned_nil_cfg s l st Hcond Hc).
Qed.

Lemma Validate_policy_outcome s l st d :
  heap st !! l = Some d →
  Validate_policy s (Some l) st = policy_outcome s l st d.
Proof.
  intros Hd. unfold policy_outcome.
  destruct (isCore d || isBundled d) eqn:Ht.
  { apply (Validate_policy_trusted s l st d Hd Ht). }
  rewrite (Validate_policy_switch s l st d Hd Ht).
  unfold logger.Debug, logger.Warn.
  repeat case_bool_decide; try reflexivity.
  unfold bind at 1. rewrite (allowUnsigned_allowance s l st d Hd).
  destruct (allowance s l (heap st) d) as [[]|]; reflexivity.
Qed.

Lemma Validate_is_outcome s l st :
  Validate s (Some l) st = Validate_outcome s l st.
Proof.
  unfold Validate_outcome. destruct (heap st !! l) as [d|] eqn:Hd.
  2:{ apply Validate_unallocated, Hd. }
  case_bool_decide as Hv. { apply (Validate_valid s l st d Hd Hv). }
  destruct (Parent d) as [q|] eqn:Hp.
  - destruct (isCore d || bool_decide (Signature d = SignatureInternal)) eqn:Hown.
    + rewrite (Validate_own s l st d Hd Hv q Hp Hown).
      apply Validate_policy_outcome. exact Hd.
    + apply orb_false_iff in Hown as [Hc Hi]. apply bool_decide_eq_false_1 in Hi.
      destruct (heap st !! q) as [par|] eqn:Hq.
      * rewrite (Validate_inherit s l st d Hd Hv q par Hp Hq Hc Hi). cbv zeta.
        case_bool_decide; [reflexivity|].
        apply Validate_policy_outcome. apply lookup_insert_eq.
      * apply (Validate_dangling s l st d Hd Hv q Hp Hq Hc Hi).
  - rewrite (Validate_orphan s l st d Hd Hv Hp).
    apply Validate_policy_outcome, Hd.
Qed.

Lemma policy_outcome_heap s l st d : heap (final (policy_outcome s l st d)) = heap st.
Proof.
  unfold policy_outcome. destruct (isCore d || isBundled d); [reflexivity|].
  repeat case_bool_decide; try reflexivity.
  destruct (allowance s l (heap st) d) as [[]|]; reflexivity.
Qed.

Lemma State_eta st : mkState (heap st) (logs st) = st.
Proof. destruct st; reflexivity. Qed.

Lemma inherited_again par d : inherited par (inherited par d) = inherited par d.
Proof. reflexivity. Qed.

Lemma inherited_self d : inherited d d = d.
Proof. destruct d; reflexivity. Qed.

(** ** Runs on equal inputs *)

Lemma Some_pair_inv {A B} (a a' : A) (b b' : B) :
  Some (a, b) = Some (a', b') → a = a' ∧ b = b'.
Proof. intros [= -> ->]. auto. Qed.

Lemma Some_inv {A} (a a' : A) : Some a = Some a' → a = a'.
Proof. intros [= ->]. reflexivity. Qed.

Lemma detach_inherited par1 par2 d1 d2 :
  detach par1 = detach par2 → detach d1 = detach d2 →
  detach (inherited par1 d1) = detach (inherited par2 d2).
Proof.
  destruct par1, par2, d1, d2. unfold detach, inherited. simpl.
  intros [= -> -> -> -> -> -> ->] [= -> -> -> -> -> -> ->]. reflexivity.
Qed.

(** The input of a plugin once it has inherited from its parent, also when
    the plugin is its own parent. *)
Lemma input_of_inherited (h : gmap loc Plugin) l q d par :
  h !! l = Some d → Parent d = Some q → h !! q = Some par →
  input_of (<[l := inherited par d]> h) l
  = Some (detach (inherited par d), Some (Some (detach par))).
Proof.
  intros Hl Hp Hq. unfold input_of. rewrite lookup_insert_eq.
  change (Parent (inherited par d)) with (Parent d). rewrite Hp.
  destruct (decide (l = q)) as [<-|Hne].
  - rewrite lookup_insert_eq. rewrite Hl in Hq. injection Hq as <-.
    rewrite inherited_self. reflexivity.
  - rewrite lookup_insert_ne by exact Hne. rewrite Hq. reflexivity.
Qed.

(** Lines 51 to 84 on equal inputs. *)
Lemma policy_same_input s l1 l2 st1 st2 :
  input_of (heap st1) l1 = input_of (heap st2) l2 →
  match allowUnsignedPluginsCondition s with
  | Some f => reads_input_only f
  | None => True
  end →
  returned (Validate_policy s (Some l1) st1) = returned (Validate_policy s (Some l2) st2)
  ∧ input_of (heap (final (Validate_policy s (Some l1) st1))) l1
    = input_of (heap (final (Validate_policy s (Some l2) st2))) l2.
Proof.
  intros Hin Hpure. rewrite !preserves_Validate_policy. split; [|exact Hin].
  pose proof Hin as Hin0. unfold input_of in Hin.
  destruct (heap st1 !! l1) as [d1|] eqn:H1, (heap st2 !! l2) as [d2|] eqn:H2;
    try discriminate.
  2:{ unfold Validate_policy, or_else, IsCorePlugin.
      rewrite !run_bind, !(run_Panic _ _ _ _ (deref_None _ _ H1)),
        !(run_Panic _ _ _ _ (deref_None _ _ H2)). reflexivity. }
  apply Some_pair_inv in Hin as [Hdet _].
  rewrite (Validate_policy_outcome s l1 st1 d1 H1), (Validate_policy_outcome s l2 st2 d2 H2).
  assert (allowance s l1 (heap st1) d1 = allowance s l2 (heap st2) d2) as Hal.
  { unfold allowance. destruct (allowUnsignedPluginsCondition s) as [f|].
    - f_equal. apply Hpure, Hin0.
    - rewrite (f_equal ID Hdet : ID d1 = ID d2). reflexivity. }
  unfold policy_outcome. rewrite Hal.
  rewrite (f_equal isCore Hdet : isCore d1 = isCore d2),
          (f_equal isBundled Hdet : isBundled d1 = isBundled d2),
          (f_equal Signature Hdet : Signature d1 = Signature d2),
          (f_equal ID Hdet : ID d1 = ID d2).
  destruct (isCore d2 || isBundled d2); [reflexivity|].
  repeat case_bool_decide; try reflexivity.
  destruct (allowance s l2 (heap st2) d2) as [[]|]; reflexivity.
Qed.

(** ** Runs on the sample stores *)

Example allow_listed_runs :
  Validate (NewValidator (Samples.production ["p1"]) None) (Some 1%positive)
    (Samples.single (Samples.plugin "p1" false false SignatureUnsigned None))
  = Done None
      (logged (Samples.single (Samples.plugin "p1" false false SignatureUnsigned None))
         log.LvlWarn "Running an unsigned plugin").
Proof. reflexivity. Qed.

Example not_listed_is_rejected :
  returned (Validate Samples.strict (Some 1%positive)
              (Samples.single (Samples.plugin "p1" false false SignatureUnsigned None)))
  = Some (Some (mkPluginSignatureError "p1" SignatureUnsigned)).
Proof. reflexivity. Qed.

Example development_allows_unsigned :
  returned (Validate (NewValidator Samples.development None) (Some 1%positive)
              (Samples.single (Samples.plugin "p1" false false SignatureUnsigned None)))
  = Some None.
Proof. reflexivity. Qed.

Example nested_inherits_valid :
  returned (Validate Samples.strict (Some 2%positive)
              (Samples.tree (Samples.root SignatureValid)
                 (Samples.plugin "panel" false false SignatureUnsigned (Some 1%positive))))
  = Some None.
Proof. reflexivity. Qed.

Example no_configuration_panics :
  returned (Validate (NewValidator None None) (Some 1%positive)
              (Samples.single (Samples.plugin "p1" false false SignatureUnsigned None)))
  = None.
Proof. reflexivity. Qed.

(** ** The claims *)

(** C1: a plugin classified as core or as bundled is allowed: [Validate]
    returns nil whatever signature status the plugin has or inherits. *)
Theorem Validate_core_or_bundled s l st d :
  heap st !! l = Some d →
  parent_live (heap st) l →
  isCore d || isBundled d = true →
  returned (Validate s (Some l) st) = Some None.
Proof.
  intros Hd Hlive Ht. unfold parent_live in Hlive. rewrite Hd in Hlive.
  destruct (decide (Signature d = SignatureValid)) as [Hv|Hv].
  { rewrite (Validate_valid s l st d Hd Hv). reflexivity. }
  destruct (Parent d) as [q|] eqn:Hp.
  - destruct (isCore d || bool_decide (Signature d = SignatureInternal)) eqn:Hown.
    + rewrite (Validate_own s l st d Hd Hv q Hp Hown).
      rewrite (Validate_policy_trusted s l _ d); [reflexivity | exact Hd | exact Ht].
    + apply orb_false_iff in Hown as [Hc Hi]. apply bool_decide_eq_false_1 in Hi.
      destruct Hlive as [par Hq].
      rewrite (Validate_inherit s l st d Hd Hv q par Hp Hq Hc Hi). cbv zeta.
      case_bool_decide; [reflexivity|].
      rewrite (Validate_policy_trusted s l _ (inherited par d));
        [reflexivity | apply lookup_insert_eq | exact Ht].
  - rewrite (Validate_orphan s l st d Hd Hv Hp).
    rewrite (Validate_policy_trusted s l st d Hd Ht). reflexivity.
Qed.

Lemma Validate_core_or_bundled_witness :
  returned (Validate Samples.strict (Some 2%positive)
              (Samples.tree (Samples.root SignatureInvalid)
                 (Samples.plugin "panel" false true SignatureUnsigned (Some 1%positive))))
  = Some None.
Proof.
  apply (Validate_core_or_bundled Samples.strict 2%positive _
           (Samples.plugin "panel" false true SignatureUnsigned (Some 1%positive))).
  - reflexivity.
  - vm_compute. eauto.
  - reflexivity.
Defined.

(** C2: for a plugin that is neither core nor bundled and whose status
    after inheritance is Unsigned: with an allowance predicate configured,
    [Validate] returns nil exactly when the predicate holds of the plugin,
    whatever the configuration says (or even without one); with no
    predicate, it returns nil in development mode, otherwise nil exactly
    when the plugin's ID is in the allow-list, otherwise an error with
    status Unsigned. *)
Theorem Validate_unsigned s l st d :
  parent_live (heap st) l →
  heap (final (Validate s (Some l) st)) !! l = Some d →
  isCore d = false → isBundled d = false →
  Signature d = SignatureUnsigned →
  match allowUnsignedPluginsCondition s with
  | Some cond =>
      returned (Validate s (Some l) st)
      = Some (if cond (Some l) (heap (final (Validate s (Some l) st)))
              then None
              else Some (mkPluginSignatureError (ID d) SignatureUnsigned))
  | None =>
      ∀ c, cfg s = Some c →
        returned (Validate s (Some l) st)
        = Some (if bool_decide (setting.Env c = setting.Dev) then None
                else if bool_decide (ID d ∈ setting.PluginsAllowUnsigned c) then None
                else Some (mkPluginSignatureError (ID d) SignatureUnsigned))
  end.
Proof.
  intros Hlive Hd Hc Hb Hs.
  destruct (Validate_resolved s l st d Hlive Hd) as (st1 & Hd1 & Hh & He).
  { rewrite Hs. discriminate. }
  rewrite <- Hh, He. pose proof (untrusted d Hc Hb) as Hu.
  destruct (allowUnsignedPluginsCondition s) as [cond|] eqn:Hcond.
  - rewrite (Validate_policy_unsigned s l st1 d Hd1 Hu _ Hs
               (allowUnsigned_cond s l st1 cond Hcond)).
    destruct (cond (Some l) (heap st1)); reflexivity.
  - intros c Hcfg.
    rewrite (Validate_policy_unsigned s l st1 d Hd1 Hu _ Hs
               (allowUnsigned_default s l st1 d Hd1 c Hcond Hcfg)).
    destruct (bool_decide (setting.Env c = setting.Dev)),
             (bool_decide (ID d ∈ setting.PluginsAllowUnsigned c)); reflexivity.
Qed.

Lemma Validate_unsigned_witness :
  returned (Validate (NewValidator (Samples.production ["p1"]) (Some (λ _ _, false)))
              (Some 1%positive)
              (Samples.single (Samples.plugin "p1" false false SignatureUnsigned None)))
  = Some (Some (mkPluginSignatureError "p1" SignatureUnsigned)).
Proof.
  apply (Validate_unsigned (NewValidator (Samples.production ["p1"]) (Some (λ _ _, false)))
           1%positive
           (Samples.single (Samples.plugin "p1" false false SignatureUnsigned None))
           (Samples.plugin "p1" false false SignatureUnsigned None)).
  - vm_compute. exact I.
  - reflexivity.
  - reflexivity.
  - reflexivity.
  - reflexivity.
Defined.

(** C3: for a plugin that is not core, whose own status is neither Valid
    nor Internal and that has a parent, [Validate] overwrites the plugin's
    signature status, type and org with the parent's and changes nothing
    else in the store; and when the inherited status is Valid it returns
    nil right after the two debug lines of the inheritance, whatever the
    bundled flag and the validator are. *)
Theorem Validate_inherits s l q st d par :
  heap st !! l = Some d → Parent d = Some q → heap st !! q = Some par →
  isCore d = false →
  Signature d ≠ SignatureValid → Signature d ≠ SignatureInternal →
  heap (final (Validate s (Some l) st))
  = <[l := mkPlugin (ID d) (PluginDir d) (isCore d) (isBundled d)
                    (Signature par) (SignatureType_ par) (SignatureOrg par)
                    (Parent d)]> (heap st)
  ∧ (Signature par = SignatureValid →
     Validate s (Some l) st
     = Done None
         (mkState
            (<[l := mkPlugin (ID d) (PluginDir d) (isCore d) (isBundled d)
                             (Signature par) (SignatureType_ par) (SignatureOrg par)
                             (Parent d)]> (heap st))
            (logs st ++ [log.mkEntry log.LvlDebug msg_inherit;
                         log.mkEntry log.LvlDebug msg_inherited_valid]))).
Proof.
  intros Hd Hp Hq Hc Hv Hi.
  rewrite (Validate_inherit s l st d Hd Hv q par Hp Hq Hc Hi). cbv zeta.
  change (inherited par d)
    with (mkPlugin (ID d) (PluginDir d) (isCore d) (isBundled d)
            (Signature par) (SignatureType_ par) (SignatureOrg par) (Parent d)).
  split.
  - case_bool_decide; [reflexivity|]. apply preserves_Validate_policy.
  - intros Hpv. rewrite bool_decide_eq_true_2 by exact Hpv.
    unfold logged. simpl. rewrite <- app_assoc. reflexivity.
Qed.

Lemma Validate_inherits_witness :
  heap (final (Validate Samples.strict (Some 2%positive)
                 (Samples.tree (Samples.root SignatureValid)
                    (Samples.plugin "panel" false false SignatureUnsigned
                       (Some 1%positive)))))
  !! 2%positive
  = Some (mkPlugin "panel" "/var/lib/plugins/panel" false false
            SignatureValid "grafana" "Grafana Labs" (Some 1%positive)).
Proof.
  destruct (Validate_inherits Samples.strict 2%positive 1%positive
              (Samples.tree (Samples.root SignatureValid)
                 (Samples.plugin "panel" false false SignatureUnsigned (Some 1%positive)))
              (Samples.plugin "panel" false false SignatureUnsigned (Some 1%positive))
              (Samples.root SignatureValid)) as [Hh _];
    [reflexivity | reflexivity | reflexivity | reflexivity
    | discriminate | discriminate |].
  etrans; [exact (f_equal (λ h : gmap loc Plugin, h !! 2%positive) Hh) | reflexivity].
Defined.

(** C4: for a plugin that is neither core nor bundled and whose status
    after inheritance is none of Valid, Unsigned, Invalid and Modified,
    [Validate] returns an error that carries the plugin's ID and the zero
    status; it does not return nil. *)
Theorem Validate_unrecognized s l st d :
  parent_live (heap st) l →
  heap (final (Validate s (Some l) st)) !! l = Some d →
  isCore d = false → isBundled d = false →
  Signature d ≠ SignatureValid → Signature d ≠ SignatureUnsigned →
  Signature d ≠ SignatureInvalid → Signature d ≠ SignatureModified →
  returned (Validate s (Some l) st)
  = Some (Some (mkPluginSignatureError (ID d) "")).
Proof.
  intros Hlive Hd Hc Hb Hv H1 H2 H3.
  destruct (Validate_resolved s l st d Hlive Hd Hv) as (st1 & Hd1 & _ & ->).
  rewrite (Validate_policy_default s l st1 d Hd1 (untrusted d Hc Hb) H1 H2 H3).
  reflexivity.
Qed.

Lemma Validate_unrecognized_witness :
  returned (Validate Samples.strict (Some 2%positive)
              (Samples.tree (Samples.root "revoked")
                 (Samples.plugin "panel" false false SignatureUnsigned (Some 1%positive))))
  = Some (Some (mkPluginSignatureError "panel" "")).
Proof.
  apply (Validate_unrecognized Samples.strict 2%positive _
           (inherited (Samples.root "revoked")
              (Samples.plugin "panel" false false SignatureUnsigned (Some 1%positive))));
    try reflexivity; try discriminate.
  vm_compute. eauto.
Defined.

(** C5: for a plugin that is neither core nor bundled and whose status
    after inheritance is Invalid, [Validate] returns an error with the
    plugin's ID and status Invalid; with Modified, an error with the
    plugin's ID and status Modified. *)
Theorem Validate_invalid_or_modified s l st d :
  parent_live (heap st) l →
  heap (final (Validate s (Some l) st)) !! l = Some d →
  isCore d = false → isBundled d = false →
  (Signature d = SignatureInvalid →
   returned (Validate s (Some l) st)
   = Some (Some (mkPluginSignatureError (ID d) SignatureInvalid)))
  ∧ (Signature d = SignatureModified →
     returned (Validate s (Some l) st)
     = Some (Some (mkPluginSignatureError (ID d) SignatureModified))).
Proof.
  intros Hlive Hd Hc Hb. pose proof (untrusted d Hc Hb) as Hu. split; intros Hs.
  - destruct (Validate_resolved s l st d Hlive Hd) as (st1 & Hd1 & _ & ->).
    { rewrite Hs. discriminate. }
    rewrite (Validate_policy_invalid s l st1 d Hd1 Hu Hs). reflexivity.
  - destruct (Validate_resolved s l st d Hlive Hd) as (st1 & Hd1 & _ & ->).
    { rewrite Hs. discriminate. }
    rewrite (Validate_policy_modified s l st1 d Hd1 Hu Hs). reflexivity.
Qed.

Lemma Validate_invalid_or_modified_witness :
  returned (Validate Samples.strict (Some 2%positive)
              (Samples.tree (Samples.root SignatureModified)
                 (Samples.plugin "panel" false false SignatureUnsigned (Some 1%positive))))
  = Some (Some (mkPluginSignatureError "panel" SignatureModified)).
Proof.
  apply (Validate_invalid_or_modified Samples.strict 2%positive _
           (inherited (Samples.root SignatureModified)
              (Samples.plugin "panel" false false SignatureUnsigned (Some 1%positive))));
    try reflexivity.
  vm_compute. eauto.
Defined.

(** C6: for a plugin whose own status is Valid, [Validate] returns nil at
    once, whatever the parent link, the flags and the validator are, and
    leaves the store as it found it: only one debug line is logged. *)
Theorem Validate_valid_at_once s l st d :
  heap st !! l = Some d →
  Signature d = SignatureValid →
  Validate s (Some l) st = Done None (logged st log.LvlDebug msg_valid)
  ∧ heap (final (Validate s (Some l) st)) = heap st.
Proof.
  intros Hd Hv. rewrite (Validate_valid s l st d Hd Hv). split; reflexivity.
Qed.

Lemma Validate_valid_at_once_witness :
  Validate Samples.strict (Some 2%positive)
    (Samples.tree (Samples.root SignatureInvalid)
       (Samples.plugin "panel" false false SignatureValid (Some 1%positive)))
  = Done None
      (logged (Samples.tree (Samples.root SignatureInvalid)
                 (Samples.plugin "panel" false false SignatureValid (Some 1%positive)))
         log.LvlDebug msg_valid).
Proof.
  apply (Validate_valid_at_once Samples.strict 2%positive _
           (Samples.plugin "panel" false false SignatureValid (Some 1%positive)));
    reflexivity.
Defined.

(** C7: for a plugin that has a parent but is itself core, or whose own
    status is Internal, [Validate] writes nothing to the store (so none of
    the parent's signature status, type or org reaches the plugin), and its
    decision is the one that lines 51 to 84 take on the plugin as it
    was. *)
Theorem Validate_keeps_own s l q st d :
  heap st !! l = Some d → Parent d = Some q →
  isCore d = true ∨ Signature d = SignatureInternal →
  heap (final (Validate s (Some l) st)) = heap st
  ∧ returned (Validate s (Some l) st) = returned (Validate_policy s (Some l) st).
Proof.
  intros Hd Hp Hown.
  destruct (decide (Signature d = SignatureValid)) as [Hv|Hv].
  - rewrite (Validate_valid s l st d Hd Hv). split; [reflexivity|].
    destruct Hown as [Hc|Hi]; [|rewrite Hi in Hv; discriminate].
    rewrite (Validate_policy_trusted s l st d Hd); [reflexivity|].
    rewrite Hc. reflexivity.
  - assert (isCore d || bool_decide (Signature d = SignatureInternal) = true) as Ho.
    { destruct Hown as [->| ->]; [reflexivity | apply orb_true_r]. }
    rewrite (Validate_own s l st d Hd Hv q Hp Ho). split.
    + rewrite preserves_Validate_policy. reflexivity.
    + apply log_blind_Validate_policy. reflexivity.
Qed.

Lemma Validate_keeps_own_witness :
  heap (final (Validate Samples.strict (Some 2%positive)
                 (Samples.tree (Samples.root SignatureInvalid)
                    (Samples.plugin "panel" true false SignatureUnsigned
                       (Some 1%positive)))))
  = heap (Samples.tree (Samples.root SignatureInvalid)
            (Samples.plugin "panel" true false SignatureUnsigned (Some 1%positive))).
Proof.
  apply (Validate_keeps_own Samples.strict 2%positive 1%positive
           (Samples.tree (Samples.root SignatureInvalid)
              (Samples.plugin "panel" true false SignatureUnsigned (Some 1%positive)))
           (Samples.plugin "panel" true false SignatureUnsigned (Some 1%positive)));
    [reflexivity | reflexivity | left; reflexivity].
Defined.

(** C8: once a first call has set a child's status to Valid by
    inheritance, a second call on the child returns nil again and leaves
    the store as the first call left it. *)
Theorem Validate_twice s l q st d par :
  heap st !! l = Some d → Parent d = Some q → heap st !! q = Some par →
  isCore d = false →
  Signature d ≠ SignatureValid → Signature d ≠ SignatureInternal →
  Signature par = SignatureValid →
  ∃ st1 st2,
    Validate s (Some l) st = Done None st1
    ∧ (∃ d1, heap st1 !! l = Some d1 ∧ Signature d1 = SignatureValid)
    ∧ Validate s (Some l) st1 = Done None st2
    ∧ heap st2 = heap st1.
Proof.
  intros Hd Hp Hq Hc Hv Hi Hpv.
  rewrite (Validate_inherit s l st d Hd Hv q par Hp Hq Hc Hi). cbv zeta.
  rewrite bool_decide_eq_true_2 by exact Hpv.
  eexists _, _. split; [reflexivity|].
  assert (heap (logged (mkState (<[l := inherited par d]> (heap st))
                          (logs st ++ [log.mkEntry log.LvlDebug msg_inherit]))
                  log.LvlDebug msg_inherited_valid) !! l
          = Some (inherited par d)) as Hd1.
  { simpl. apply lookup_insert_eq. }
  split; [exists (inherited par d); split; [exact Hd1 | exact Hpv]|].
  split; [apply (Validate_valid s l _ _ Hd1 Hpv) | reflexivity].
Qed.

Lemma Validate_twice_witness :
  ∃ st1 st2,
    Validate Samples.strict (Some 2%positive)
      (Samples.tree (Samples.root SignatureValid)
         (Samples.plugin "panel" false false SignatureUnsigned (Some 1%positive)))
    = Done None st1
    ∧ (∃ d1, heap st1 !! 2%positive = Some d1 ∧ Signature d1 = SignatureValid)
    ∧ Validate Samples.strict (Some 2%positive) st1 = Done None st2
    ∧ heap st2 = heap st1.
Proof.
  apply (Validate_twice Samples.strict 2%positive 1%positive
           (Samples.tree (Samples.root SignatureValid)
              (Samples.plugin "panel" false false SignatureUnsigned (Some 1%positive)))
           (Samples.plugin "panel" false false SignatureUnsigned (Some 1%positive))
           (Samples.root SignatureValid));
    first [reflexivity | discriminate].
Defined.

(** C9: [Validate] is deterministic.  Two calls of the same validator (the
    same configuration and the same predicate, a pure one: its answer is a
    function of the plugin's and its parent's fields) on plugins with equal
    descriptors and parents with equal descriptors, at any addresses, in
    any stores and with any logs, take the same decision: both panic, both
    return nil, or both return equal errors.  They also leave the two
    plugins with equal descriptors. *)
Theorem Validate_deterministic s l1 l2 st1 st2 :
  input_of (heap st1) l1 = input_of (heap st2) l2 →
  match allowUnsignedPluginsCondition s with
  | Some f => reads_input_only f
  | None => True
  end →
  returned (Validate s (Some l1) st1) = returned (Validate s (Some l2) st2)
  ∧ input_of (heap (final (Validate s (Some l1) st1))) l1
    = input_of (heap (final (Validate s (Some l2) st2))) l2.
Proof.
  intros Hin Hpure. pose proof Hin as Hin0. unfold input_of in Hin.
  destruct (heap st1 !! l1) as [d1|] eqn:H1, (heap st2 !! l2) as [d2|] eqn:H2;
    try discriminate.
  2:{ rewrite (Validate_unallocated s l1 st1 H1), (Validate_unallocated s l2 st2 H2).
      split; [reflexivity | exact Hin0]. }
  apply Some_pair_inv in Hin as [Hdet Hpar].
  pose proof (f_equal Signature Hdet) as Hsig. pose proof (f_equal isCore Hdet) as Hcore.
  simpl in Hsig, Hcore.
  destruct (decide (Signature d1 = SignatureValid)) as [Hv1|Hv1].
  { assert (Signature d2 = SignatureValid) as Hv2 by congruence.
    rewrite (Validate_valid s l1 st1 d1 H1 Hv1), (Validate_valid s l2 st2 d2 H2 Hv2).
    split; [reflexivity | exact Hin0]. }
  assert (Signature d2 ≠ SignatureValid) as Hv2 by congruence.
  destruct (Parent d1) as [q1|] eqn:Hp1, (Parent d2) as [q2|] eqn:Hp2; try discriminate.
  2:{ rewrite (Validate_orphan s l1 st1 d1 H1 Hv1 Hp1),
              (Validate_orphan s l2 st2 d2 H2 Hv2 Hp2).
      apply (policy_same_input s l1 l2 st1 st2 Hin0 Hpure). }
  apply Some_inv in Hpar.
  destruct (isCore d1 || bool_decide (Signature d1 = SignatureInternal)) eqn:Hown1.
  { assert (isCore d2 || bool_decide (Signature d2 = SignatureInternal) = true) as Hown2
      by (rewrite <- Hcore, <- Hsig; exact Hown1).
    rewrite (Validate_own s l1 st1 d1 H1 Hv1 q1 Hp1 Hown1),
            (Validate_own s l2 st2 d2 H2 Hv2 q2 Hp2 Hown2).
    apply (policy_same_input s l1 l2 (logged st1 log.LvlDebug msg_own)
             (logged st2 log.LvlDebug msg_own) Hin0 Hpure). }
  assert (isCore d2 || bool_decide (Signature d2 = SignatureInternal) = false) as Hown2
    by (rewrite <- Hcore, <- Hsig; exact Hown1).
  apply orb_false_iff in Hown1 as [Hc1 Hi1]. apply bool_decide_eq_false_1 in Hi1.
  apply orb_false_iff in Hown2 as [Hc2 Hi2]. apply bool_decide_eq_false_1 in Hi2.
  destruct (heap st1 !! q1) as [par1|] eqn:Hq1, (heap st2 !! q2) as [par2|] eqn:Hq2;
    try discriminate.
  2:{ rewrite (Validate_dangling s l1 st1 d1 H1 Hv1 q1 Hp1 Hq1 Hc1 Hi1),
              (Validate_dangling s l2 st2 d2 H2 Hv2 q2 Hp2 Hq2 Hc2 Hi2).
      split; [reflexivity | exact Hin0]. }
  apply Some_inv in Hpar.
  rewrite (Validate_inherit s l1 st1 d1 H1 Hv1 q1 par1 Hp1 Hq1 Hc1 Hi1),
          (Validate_inherit s l2 st2 d2 H2 Hv2 q2 par2 Hp2 Hq2 Hc2 Hi2).
  cbv zeta.
  assert (input_of (<[l1 := inherited par1 d1]> (heap st1)) l1
          = input_of (<[l2 := inherited par2 d2]> (heap st2)) l2) as Hin'.
  { rewrite (input_of_inherited _ l1 q1 d1 par1 H1 Hp1 Hq1),
            (input_of_inherited _ l2 q2 d2 par2 H2 Hp2 Hq2).
    rewrite (detach_inherited par1 par2 d1 d2 Hpar Hdet), Hpar. reflexivity. }
  rewrite (f_equal Signature Hpar : Signature par1 = Signature par2).
  case_bool_decide.
  - split; [reflexivity | exact Hin'].
  - apply (policy_same_input s l1 l2
             (mkState (<[l1 := inherited par1 d1]> (heap st1)) _)
             (mkState (<[l2 := inherited par2 d2]> (heap st2)) _) Hin' Hpure).
Qed.

Lemma Validate_deterministic_witness :
  returned (Validate (NewValidator (Samples.production ["p1"]) (Some (λ _ _, false)))
              (Some 1%positive)
              (Samples.single (Samples.plugin "p1" false false SignatureUnsigned None)))
  = returned (Validate (NewValidator (Samples.production ["p1"]) (Some (λ _ _, false)))
                (Some 2%positive)
                (logged (Samples.tree (Samples.root SignatureModified)
                           (Samples.plugin "p1" false false SignatureUnsigned None))
                   log.LvlWarn "Running an unsigned plugin")).
Proof.
  apply (Validate_deterministic
           (NewValidator (Samples.production ["p1"]) (Some (λ _ _, false)))
           1%positive 2%positive
           (Samples.single (Samples.plugin "p1" false false SignatureUnsigned None))
           (logged (Samples.tree (Samples.root SignatureModified)
                      (Samples.plugin "p1" false false SignatureUnsigned None))
              log.LvlWarn "Running an unsigned plugin")).
  - reflexivity.
  - intros l1 h1 l2 h2 _. reflexivity.
Defined.

(** C10: when the status after inheritance is Internal, [Validate] returns
    nil only through the core/bundled override; a plugin that is neither
    core nor bundled gets the error of the default branch, with the
    plugin's ID and the zero status. *)
Theorem Validate_internal s l st d :
  parent_live (heap st) l →
  heap (final (Validate s (Some l) st)) !! l = Some d →
  Signature d = SignatureInternal →
  returned (Validate s (Some l) st)
  = Some (if isCore d || isBundled d then None
          else Some (mkPluginSignatureError (ID d) "")).
Proof.
  intros Hlive Hd Hs.
  destruct (Validate_resolved s l st d Hlive Hd) as (st1 & Hd1 & _ & ->).
  { rewrite Hs. discriminate. }
  destruct (isCore d || isBundled d) eqn:Ht.
  - rewrite (Validate_policy_trusted s l st1 d Hd1 Ht). reflexivity.
  - rewrite (Validate_policy_default s l st1 d Hd1 Ht); try (rewrite Hs; discriminate).
    reflexivity.
Qed.

Lemma Validate_internal_witness :
  returned (Validate Samples.strict (Some 2%positive)
              (Samples.tree (Samples.root SignatureValid)
                 (Samples.plugin "panel" false false SignatureInternal (Some 1%positive))))
  = Some (Some (mkPluginSignatureError "panel" "")).
Proof.
  apply (Validate_internal Samples.strict 2%positive _
           (Samples.plugin "panel" false false SignatureInternal (Some 1%positive)));
    try reflexivity.
  vm_compute. eauto.
Defined.

(** What the lines before line 51 do: either the parent link dangles and
    the run stops where it started, or they leave a descriptor [d'] at [l]
    (the plugin's own or the inherited one) and some debug lines [pre], and
    the run ends there when [d'] is Valid and goes on with lines 51 to 84
    otherwise. *)
Lemma Validate_resolution l st d :
  heap st !! l = Some d →
  (∃ q, Parent d = Some q ∧ heap st !! q = None ∧ isCore d = false
        ∧ Signature d ≠ SignatureValid ∧ Signature d ≠ SignatureInternal
        ∧ ∀ s, Validate s (Some l) st = Panic st)
  ∨ ∃ d' pre,
      (d' = d
       ∨ ∃ q par, Parent d = Some q ∧ heap st !! q = Some par ∧ isCore d = false
                  ∧ Signature d ≠ SignatureValid ∧ Signature d ≠ SignatureInternal
                  ∧ d' = inherited par d)
      ∧ Forall (λ e, log.level e = log.LvlDebug) pre
      ∧ (List.length pre ≤ (if bool_decide (Signature d' = SignatureValid) then 2 else 1))%nat
      ∧ ∀ s, Validate s (Some l) st
             = if bool_decide (Signature d' = SignatureValid)
               then Done None (mkState (<[l := d']> (heap st)) (logs st ++ pre))
               else policy_outcome s l
                      (mkState (<[l := d']> (heap st)) (logs st ++ pre)) d'.
Proof.
  intros Hd.
  destruct (decide (Signature d = SignatureValid)) as [Hv|Hv].
  { right. exists d, [log.mkEntry log.LvlDebug msg_valid].
    split; [left; reflexivity|]. split; [repeat constructor|].
    rewrite (bool_decide_eq_true_2 _ Hv). split; [simpl; lia|]. intros s.
    rewrite (Validate_valid s l st d Hd Hv), (insert_id _ _ _ Hd). reflexivity. }
  destruct (Parent d) as [q|] eqn:Hp.
  - destruct (isCore d || bool_decide (Signature d = SignatureInternal)) eqn:Hown.
    + right. exists d, [log.mkEntry log.LvlDebug msg_own].
      split; [left; reflexivity|]. split; [repeat constructor|].
      rewrite (bool_decide_eq_false_2 _ Hv). split; [simpl; lia|]. intros s.
      rewrite (Validate_own s l st d Hd Hv q Hp Hown), (insert_id _ _ _ Hd).
      apply Validate_policy_outcome, Hd.
    + apply orb_false_iff in Hown as [Hc Hi]. apply bool_decide_eq_false_1 in Hi.
      destruct (heap st !! q) as [par|] eqn:Hq.
      * right. destruct (decide (Signature par = SignatureValid)) as [Hpv|Hpv].
        -- exists (inherited par d),
             [log.mkEntry log.LvlDebug msg_inherit;
              log.mkEntry log.LvlDebug msg_inherited_valid].
           split; [right; exists q, par; auto 10|]. split; [repeat constructor|].
           change (Signature (inherited par d)) with (Signature par).
           rewrite (bool_decide_eq_true_2 _ Hpv). split; [simpl; lia|]. intros s.
           rewrite (Validate_inherit s l st d Hd Hv q par Hp Hq Hc Hi). cbv zeta.
           rewrite (bool_decide_eq_true_2 _ Hpv). unfold logged. simpl.
           rewrite <- app_assoc. reflexivity.
        -- exists (inherited par d), [log.mkEntry log.LvlDebug msg_inherit].
           split; [right; exists q, par; auto 10|]. split; [repeat constructor|].
           change (Signature (inherited par d)) with (Signature par).
           rewrite (bool_decide_eq_false_2 _ Hpv). split; [simpl; lia|]. intros s.
           rewrite (Validate_inherit s l st d Hd Hv q par Hp Hq Hc Hi). cbv zeta.
           rewrite (bool_decide_eq_false_2 _ Hpv).
           apply Validate_policy_outcome, lookup_insert_eq.
      * left. exists q. repeat split; auto.
        intros s. apply (Validate_dangling s l st d Hd Hv q Hp Hq Hc Hi).
  - right. exists d, []. split; [left; reflexivity|]. split; [constructor|].
    rewrite (bool_decide_eq_false_2 _ Hv). split; [simpl; lia|]. intros s.
    rewrite (Validate_orphan s l st d Hd Hv Hp), (insert_id _ _ _ Hd), app_nil_r, State_eta.
    apply Validate_policy_outcome, Hd.
Qed.

(** ** Further properties of the validator

    A property that a predicate could break by writing to the store, by
    panicking or by answering differently from call to call is stated for
    validators without a predicate. *)

(** X1: [allowUnsigned] of a validator built by [NewValidator] without
    a predicate, on an allocated plugin, changes neither the store nor the
    log.  With a configuration it returns true exactly in development mode
    or when the plugin's ID occurs in the allow-list, wherever and however
    often; without a configuration it panics. *)
Theorem allowUnsigned_decides c l st d :
  heap st !! l = Some d →
  allowUnsigned (NewValidator c None) (Some l) st
  = match c with
    | Some c =>
        Done (bool_decide (setting.Env c = setting.Dev
                           ∨ ID d ∈ setting.PluginsAllowUnsigned c)) st
    | None => Panic st
    end.
Proof.
  intros Hd. rewrite (allowUnsigned_allowance _ l st d Hd). unfold allowance. simpl.
  destruct c as [c|]; [|reflexivity].
  f_equal. destruct (decide (setting.Env c = setting.Dev)) as [He|He].
  - rewrite (bool_decide_eq_true_2 _ He). symmetry. apply bool_decide_eq_true_2. auto.
  - rewrite (bool_decide_eq_false_2 _ He). apply bool_decide_ext. tauto.
Qed.

Lemma allowUnsigned_decides_witness :
  allowUnsigned (NewValidator (Samples.production ["a"; "p1"]) None) (Some 1%positive)
    (Samples.single (Samples.plugin "p1" false false SignatureUnsigned None))
  = Done true (Samples.single (Samples.plugin "p1" false false SignatureUnsigned None)).
Proof.
  apply (allowUnsigned_decides (Samples.production ["a"; "p1"]) 1%positive
           (Samples.single (Samples.plugin "p1" false false SignatureUnsigned None))
           (Samples.plugin "p1" false false SignatureUnsigned None)).
  reflexivity.
Defined.

(** X2: [Validate] of a validator without a predicate writes to no
    descriptor of the store but the plugin's own: in particular the parent
    is only read, never written, unless the plugin is its own parent. *)
Theorem Validate_frame s l l' st :
  allowUnsignedPluginsCondition s = None →
  l' ≠ l →
  heap (final (Validate s (Some l) st)) !! l' = heap st !! l'.
Proof.
  intros _ Hne. destruct (heap st !! l) as [d|] eqn:Hd.
  2:{ rewrite (Validate_unallocated s l st Hd). reflexivity. }
  destruct (Validate_resolution l st d Hd)
    as [(q & _ & _ & _ & _ & _ & Hrun)|(d' & pre & _ & _ & _ & Hrun)];
    rewrite Hrun; [reflexivity|].
  case_bool_decide; [|rewrite policy_outcome_heap]; simpl;
    apply lookup_insert_ne; auto.
Qed.

Lemma Validate_frame_witness :
  heap (final (Validate Samples.strict (Some 2%positive)
                 (Samples.tree (Samples.root SignatureInvalid)
                    (Samples.plugin "panel" false false SignatureUnsigned
                       (Some 1%positive)))))
  !! 1%positive
  = Some (Samples.root SignatureInvalid).
Proof.
  etrans; [apply (Validate_frame Samples.strict 2%positive 1%positive);
           [reflexivity | discriminate]|].
  reflexivity.
Defined.

(** X3: [Validate] of a validator without a predicate never frees or
    allocates a descriptor, and of the plugin's own descriptor it keeps the
    ID, the directory, the classification and the parent link: only the
    signature status, type and org can change. *)
Theorem Validate_keeps_identity s l st d :
  allowUnsignedPluginsCondition s = None →
  heap st !! l = Some d →
  ∃ d', heap (final (Validate s (Some l) st)) !! l = Some d'
        ∧ ID d' = ID d ∧ PluginDir d' = PluginDir d
        ∧ isCore d' = isCore d ∧ isBundled d' = isBundled d
        ∧ Parent d' = Parent d.
Proof.
  intros _ Hd.
  destruct (Validate_resolution l st d Hd)
    as [(q & _ & _ & _ & _ & _ & Hrun)|(d' & pre & Hd' & _ & _ & Hrun)];
    rewrite Hrun.
  { exists d. simpl. auto 10. }
  exists d'. split.
  - case_bool_decide; [|rewrite policy_outcome_heap]; simpl; apply lookup_insert_eq.
  - destruct Hd' as [->|(q & par & _ & _ & _ & _ & _ & ->)]; auto 10.
Qed.

Lemma Validate_keeps_identity_witness :
  ∃ d', heap (final (Validate Samples.strict (Some 2%positive)
                       (Samples.tree (Samples.root SignatureModified)
                          (Samples.plugin "panel" false true SignatureUnsigned
                             (Some 1%positive)))))
        !! 2%positive = Some d'
        ∧ ID d' = "panel" ∧ PluginDir d' = "/var/lib/plugins/panel"
        ∧ isCore d' = false ∧ isBundled d' = true
        ∧ Parent d' = Some 1%positive.
Proof.
  apply (Validate_keeps_identity Samples.strict 2%positive
           (Samples.tree (Samples.root SignatureModified)
              (Samples.plugin "panel" false true SignatureUnsigned (Some 1%positive)))
           (Samples.plugin "panel" false true SignatureUnsigned (Some 1%positive)));
    reflexivity.
Defined.

(** X4: [Validate] leaves the whole store as it found it when the plugin
    is core, or its own status is Valid or Internal (the predicate is not
    reached then); and also when the plugin has no parent or is its own
    parent, provided the predicate is not reached either: the validator has
    none, or the plugin is bundled, or its status is not Unsigned.  So a
    validator without a predicate changes the store only when a descendant
    inherits from another plugin. *)
Theorem Validate_writes_only_by_inheritance s l st d :
  heap st !! l = Some d →
  isCore d = true ∨ Signature d = SignatureValid ∨ Signature d = SignatureInternal
  ∨ ((Parent d = None ∨ Parent d = Some l)
     ∧ (allowUnsignedPluginsCondition s = None
        ∨ isBundled d = true ∨ Signature d ≠ SignatureUnsigned)) →
  heap (final (Validate s (Some l) st)) = heap st.
Proof.
  intros Hd Hcase.
  destruct (Validate_resolution l st d Hd)
    as [(q & _ & _ & _ & _ & _ & Hrun)|(d' & pre & Hd' & _ & _ & Hrun)];
    rewrite Hrun; [reflexivity|].
  assert (d' = d) as ->.
  { destruct Hd' as [->|(q & par & Hp & Hq & Hc & Hv & Hi & ->)]; [reflexivity|].
    destruct Hcase as [Hc'|[Hv'|[Hi'|[[Hp'|Hp'] _]]]]; try congruence.
    rewrite Hp in Hp'. injection Hp' as ->. rewrite Hd in Hq. injection Hq as <-.
    destruct d; reflexivity. }
  case_bool_decide; [|rewrite policy_outcome_heap]; simpl; apply insert_id, Hd.
Qed.

Lemma Validate_writes_only_by_inheritance_witness :
  heap (final (Validate Samples.strict (Some 1%positive)
                 (Samples.single
                    (Samples.plugin "loop" false false SignatureUnsigned
                       (Some 1%positive)))))
  = heap (Samples.single
            (Samples.plugin "loop" false false SignatureUnsigned (Some 1%positive))).
Proof.
  apply (Validate_writes_only_by_inheritance Samples.strict 1%positive _
           (Samples.plugin "loop" false false SignatureUnsigned (Some 1%positive)));
    [reflexivity | do 3 right; split; [right; reflexivity | left; reflexivity]].
Defined.

(** The store and the plugin's descriptor when [Validate] ends, for a
    plugin whose parent link does not dangle. *)
Lemma Validate_settled s l st d :
  heap st !! l = Some d → parent_live (heap st) l →
  ∃ d' st',
    heap st' !! l = Some d' ∧ ID d' = ID d
    ∧ heap (final (Validate s (Some l) st)) = heap st'
    ∧ Validate s (Some l) st
      = if bool_decide (Signature d' = SignatureValid) then Done None st'
        else policy_outcome s l st' d'.
Proof.
  intros Hd Hlive. unfold parent_live in Hlive. rewrite Hd in Hlive.
  destruct (Validate_resolution l st d Hd)
    as [(q & Hp & Hq & _)|(d' & pre & Hd' & _ & _ & Hrun)].
  { rewrite Hp, Hq in Hlive. destruct Hlive as [? ?]. discriminate. }
  exists d', (mkState (<[l := d']> (heap st)) (logs st ++ pre)).
  split; [apply lookup_insert_eq|]. split.
  { destruct Hd' as [->|(q & par & _ & _ & _ & _ & _ & ->)]; reflexivity. }
  rewrite Hrun. split; [|reflexivity].
  case_bool_decide; [reflexivity | apply policy_outcome_heap].
Qed.

Lemma allowance_None s l h d :
  allowance s l h d = None ↔ allowUnsignedPluginsCondition s = None ∧ cfg s = None.
Proof.
  unfold allowance. destruct (allowUnsignedPluginsCondition s), (cfg s);
    split; intros H; try discriminate; try (destruct H; discriminate); auto.
Qed.

Ltac policy_cases s l st d :=
  unfold policy_outcome;
  destruct (isCore d) eqn:?, (isBundled d) eqn:?; cbn [orb];
  repeat case_bool_decide;
  try (destruct (allowance s l (heap st) d) as [[]|] eqn:?);
  cbn [returned final heap logs logged].

(** X5: for a validator without a predicate, on an allocated plugin
    whose parent link does not dangle, [Validate] panics in one case only:
    the validator has no configuration either, and the plugin is neither
    core nor bundled with status Unsigned after inheritance.  In every
    other case it returns. *)
Theorem Validate_panics_iff s l st d :
  allowUnsignedPluginsCondition s = None →
  heap st !! l = Some d → parent_live (heap st) l →
  returned (Validate s (Some l) st) = None
  ↔ cfg s = None
    ∧ ∃ d', heap (final (Validate s (Some l) st)) !! l = Some d'
            ∧ Signature d' = SignatureUnsigned
            ∧ isCore d' = false ∧ isBundled d' = false.
Proof.
  intros Hcond Hd Hlive.
  destruct (Validate_settled s l st d Hd Hlive) as (d' & st' & Hd' & _ & -> & ->).
  rewrite Hd'. split.
  - intros Hr. case_bool_decide as Hv; [discriminate|]. revert Hr.
    policy_cases s l st' d'; intros Hr; try discriminate.
    match goal with H : allowance _ _ _ _ = None |- _ =>
      apply allowance_None in H as [? ?] end.
    eauto 10.
  - intros (Hcfg & d'' & [= <-] & Hs & Hc & Hb).
    rewrite bool_decide_eq_false_2 by (rewrite Hs; discriminate).
    unfold policy_outcome. rewrite Hc, Hb, (bool_decide_eq_true_2 _ Hs).
    rewrite (proj2 (allowance_None s l (heap st') d') (conj Hcond Hcfg)). reflexivity.
Qed.

Lemma Validate_panics_iff_witness :
  returned (Validate (NewValidator Samples.development None) (Some 2%positive)
              (Samples.tree (Samples.root SignatureUnsigned)
                 (Samples.plugin "panel" false false SignatureInvalid (Some 1%positive))))
  ≠ None.
Proof.
  intros H.
  apply (Validate_panics_iff (NewValidator Samples.development None) 2%positive
           (Samples.tree (Samples.root SignatureUnsigned)
              (Samples.plugin "panel" false false SignatureInvalid (Some 1%positive)))
           (Samples.plugin "panel" false false SignatureInvalid (Some 1%positive)))
    in H as (Hcfg & _);
    [discriminate | reflexivity | reflexivity | vm_compute; eauto].
Defined.

(** X6: on an allocated plugin whose parent link does not dangle,
    [Validate] returns nil exactly when, after inheritance, the plugin's
    status is Valid, or the plugin is core or bundled, or its status is
    Unsigned and the unsigned allowance holds.  A plugin that is neither
    core nor bundled and whose status is Invalid, Modified, Internal or
    anything else is never allowed. *)
Theorem Validate_nil_iff s l st d :
  heap st !! l = Some d → parent_live (heap st) l →
  returned (Validate s (Some l) st) = Some None
  ↔ ∃ d', heap (final (Validate s (Some l) st)) !! l = Some d'
          ∧ (Signature d' = SignatureValid
             ∨ isCore d' = true ∨ isBundled d' = true
             ∨ (Signature d' = SignatureUnsigned
                ∧ unsigned_allowed s l (heap (final (Validate s (Some l) st))) d')).
Proof.
  intros Hd Hlive. unfold unsigned_allowed.
  destruct (Validate_settled s l st d Hd Hlive) as (d' & st' & Hd' & _ & -> & ->).
  rewrite Hd'. split.
  - intros Hr. exists d'. split; [reflexivity|].
    case_bool_decide as Hv; [auto|]. revert Hr.
    policy_cases s l st' d'; intros Hr; try discriminate; auto 10.
  - intros (d'' & [= <-] & Hcase).
    case_bool_decide as Hv; [reflexivity|].
    policy_cases s l st' d'; try reflexivity;
      destruct Hcase as [?|[?|[?|[? ?]]]]; congruence.
Qed.

Lemma Validate_nil_iff_witness :
  returned (Validate Samples.strict (Some 2%positive)
              (Samples.tree (Samples.root SignatureValid)
                 (Samples.plugin "panel" false false SignatureModified (Some 1%positive))))
  = Some None.
Proof.
  apply (Validate_nil_iff Samples.strict 2%positive
           (Samples.tree (Samples.root SignatureValid)
              (Samples.plugin "panel" false false SignatureModified (Some 1%positive)))
           (Samples.plugin "panel" false false SignatureModified (Some 1%positive)));
    [reflexivity | vm_compute; eauto |].
  eexists. split; [reflexivity | left; reflexivity].
Defined.

(** X7: an error returned by [Validate] names the plugin it was called
    on; the plugin is then neither core nor bundled, and the error's status
    is the plugin's status after inheritance when that is Unsigned, Invalid
    or Modified, and the zero status otherwise.  An error never carries the
    status Valid or Internal. *)
Theorem Validate_error_shape s l st e :
  returned (Validate s (Some l) st) = Some (Some e) →
  ∃ d', heap (final (Validate s (Some l) st)) !! l = Some d'
        ∧ PluginID e = ID d'
        ∧ isCore d' = false ∧ isBundled d' = false
        ∧ Signature d' ≠ SignatureValid
        ∧ SignatureStatus_ e
          = (if bool_decide (Signature d' = SignatureUnsigned) then SignatureUnsigned
             else if bool_decide (Signature d' = SignatureInvalid) then SignatureInvalid
             else if bool_decide (Signature d' = SignatureModified) then SignatureModified
             else "").
Proof.
  intros Hr. destruct (heap st !! l) as [d|] eqn:Hd.
  2:{ rewrite (Validate_unallocated s l st Hd) in Hr. discriminate. }
  destruct (Validate_resolution l st d Hd)
    as [(q & _ & _ & _ & _ & _ & Hrun)|(d' & pre & _ & _ & _ & Hrun)];
    rewrite Hrun in Hr |- *; [discriminate|].
  set (st' := mkState (<[l := d']> (heap st)) (logs st ++ pre)) in *.
  assert (heap st' !! l = Some d') as Hd' by apply lookup_insert_eq.
  exists d'. case_bool_decide as Hv; [discriminate|].
  rewrite policy_outcome_heap. split; [exact Hd'|]. revert Hr.
  unfold policy_outcome.
  destruct (isCore d') eqn:Hc, (isBundled d') eqn:Hb; cbn [orb];
    try (intros [=]; fail).
  repeat case_bool_decide;
    try (destruct (allowance s l (heap st') d') as [[]|]);
    cbn [returned]; intros [= <-]; auto 10.
Qed.

Lemma Validate_error_shape_witness :
  ∃ d', heap (final (Validate Samples.strict (Some 1%positive)
                       (Samples.single
                          (Samples.plugin "p1" false false SignatureInvalid None))))
        !! 1%positive = Some d'
        ∧ "p1" = ID d'
        ∧ isCore d' = false ∧ isBundled d' = false
        ∧ Signature d' ≠ SignatureValid
        ∧ SignatureInvalid
          = (if bool_decide (Signature d' = SignatureUnsigned) then SignatureUnsigned
             else if bool_decide (Signature d' = SignatureInvalid) then SignatureInvalid
             else if bool_decide (Signature d' = SignatureModified) then SignatureModified
             else "").
Proof.
  apply (Validate_error_shape Samples.strict 1%positive
           (Samples.single (Samples.plugin "p1" false false SignatureInvalid None))
           (mkPluginSignatureError "p1" SignatureInvalid)).
  reflexivity.
Defined.

(** A run of lines 51 to 84 that returned takes the same decision from any
    state that holds the same store, and leaves that store. *)
Lemma Validate_policy_rerun s p stA stB stC r :
  Validate_policy s p stA = Done r stB → heap stC = heap stA →
  heap stB = heap stA
  ∧ ∃ stD, Validate_policy s p stC = Done r stD ∧ heap stD = heap stC.
Proof.
  intros Hrun Hh. pose proof (preserves_Validate_policy s p stA) as HB.
  rewrite Hrun in HB. split; [exact HB|].
  destruct (log_blind_Validate_policy s p stA stC (eq_sym Hh)) as [Hr _].
  rewrite Hrun in Hr. pose proof (preserves_Validate_policy s p stC) as HD.
  destruct (Validate_policy s p stC) as [?|r' stD]; [discriminate|].
  injection Hr as <-. eauto.
Qed.

(** X8: [Validate] of a validator without a predicate is idempotent on
    every plugin, not only on one that inherited Valid: when a call on an
    allocated plugin whose parent link does not dangle returns, a second
    call returns the same decision and leaves the store as the first call
    left it. *)
Theorem Validate_idempotent s l st d r st1 :
  allowUnsignedPluginsCondition s = None →
  heap st !! l = Some d → parent_live (heap st) l →
  Validate s (Some l) st = Done r st1 →
  ∃ st2, Validate s (Some l) st1 = Done r st2 ∧ heap st2 = heap st1.
Proof.
  intros _ Hd Hlive Hrun. unfold parent_live in Hlive. rewrite Hd in Hlive.
  destruct (decide (Signature d = SignatureValid)) as [Hv|Hv].
  { rewrite (Validate_valid s l st d Hd Hv) in Hrun. injection Hrun as <- <-.
    eexists. split.
    - apply (Validate_valid s l (logged st log.LvlDebug msg_valid) d Hd Hv).
    - reflexivity. }
  destruct (Parent d) as [q|] eqn:Hp.
  - destruct (isCore d || bool_decide (Signature d = SignatureInternal)) eqn:Hown.
    + rewrite (Validate_own s l st d Hd Hv q Hp Hown) in Hrun.
      destruct (Validate_policy_rerun s (Some l) _ st1
                  (logged st1 log.LvlDebug msg_own) r Hrun) as (Hh1 & st2 & H2 & Hh2).
      { exact (proj1 (Validate_policy_rerun _ _ _ _ _ _ Hrun eq_refl)). }
      simpl in Hh1. assert (heap st1 !! l = Some d) as Hd1 by (rewrite Hh1; exact Hd).
      exists st2. rewrite (Validate_own s l st1 d Hd1 Hv q Hp Hown). auto.
    + apply orb_false_iff in Hown as [Hc Hi]. apply bool_decide_eq_false_1 in Hi.
      destruct Hlive as [par Hq].
      rewrite (Validate_inherit s l st d Hd Hv q par Hp Hq Hc Hi) in Hrun.
      cbv zeta in Hrun. set (d1 := inherited par d) in *.
      case_bool_decide as Hpv.
      * injection Hrun as <- <-. eexists. split.
        -- apply (Validate_valid s l _ d1); [apply lookup_insert_eq | exact Hpv].
        -- reflexivity.
      * destruct (Validate_policy_rerun s (Some l) _ st1 _ r Hrun eq_refl) as (Hh1 & _).
        simpl in Hh1.
        assert (heap st1 !! l = Some d1) as Hd1.
        { rewrite Hh1. apply lookup_insert_eq. }
        assert (∃ par1, heap st1 !! q = Some par1 ∧ inherited par1 d1 = d1
                        ∧ Signature par1 = Signature par) as (par1 & Hq1 & Hfix & Hs1).
        { rewrite Hh1. destruct (decide (l = q)) as [<-|Hne].
          - exists d1. rewrite lookup_insert_eq. auto using inherited_self.
          - exists par. rewrite lookup_insert_ne by exact Hne.
            auto using inherited_again. }
        destruct (decide (Signature par = SignatureInternal)) as [Hpi|Hpi].
        -- assert (isCore d1 || bool_decide (Signature d1 = SignatureInternal) = true)
             as Hown1.
           { change (Signature d1) with (Signature par).
             rewrite (bool_decide_eq_true_2 _ Hpi). apply orb_true_r. }
           rewrite (Validate_own s l st1 d1 Hd1 Hpv q Hp Hown1).
           destruct (Validate_policy_rerun s (Some l) _ st1
                       (logged st1 log.LvlDebug msg_own) r Hrun)
             as (_ & st2 & H2 & Hh2); [simpl; exact Hh1|].
           exists st2. auto.
        -- rewrite (Validate_inherit s l st1 d1 Hd1 Hpv q par1 Hp Hq1 Hc Hpi).
           cbv zeta. rewrite Hfix, Hs1, (bool_decide_eq_false_2 _ Hpv).
           destruct (Validate_policy_rerun s (Some l) _ st1
                       (mkState (<[l := d1]> (heap st1))
                          (logs st1 ++ [log.mkEntry log.LvlDebug msg_inherit])) r Hrun)
             as (_ & st2 & H2 & Hh2).
           { simpl. rewrite Hh1. apply insert_insert_eq. }
           exists st2. split; [exact H2|]. rewrite Hh2. simpl.
           apply insert_id, Hd1.
  - rewrite (Validate_orphan s l st d Hd Hv Hp) in Hrun.
    destruct (Validate_policy_rerun s (Some l) st st1 st1 r Hrun) as (Hh1 & st2 & H2 & Hh2).
    { exact (proj1 (Validate_policy_rerun _ _ _ _ _ _ Hrun eq_refl)). }
    assert (heap st1 !! l = Some d) as Hd1 by (rewrite Hh1; exact Hd).
    exists st2. rewrite (Validate_orphan s l st1 d Hd1 Hv Hp). auto.
Qed.

Lemma Validate_idempotent_witness :
  ∃ st2,
    Validate Samples.strict (Some 2%positive)
      (final (Validate Samples.strict (Some 2%positive)
                (Samples.tree (Samples.root SignatureUnsigned)
                   (Samples.plugin "panel" false false SignatureInvalid
                      (Some 1%positive)))))
    = Done (Some (mkPluginSignatureError "panel" SignatureUnsigned)) st2
    ∧ heap st2
      = heap (final (Validate Samples.strict (Some 2%positive)
                       (Samples.tree (Samples.root SignatureUnsigned)
                          (Samples.plugin "panel" false false SignatureInvalid
                             (Some 1%positive))))).
Proof.
  apply (Validate_idempotent Samples.strict 2%positive
           (Samples.tree (Samples.root SignatureUnsigned)
              (Samples.plugin "panel" false false SignatureInvalid (Some 1%positive)))
           (Samples.plugin "panel" false false SignatureInvalid (Some 1%positive)));
    [reflexivity | reflexivity | vm_compute; eauto | reflexivity].
Defined.

Lemma Validate_inherit_heap s l st d q par :
  heap st !! l = Some d → Parent d = Some q → heap st !! q = Some par →
  isCore d = false → Signature d ≠ SignatureValid → Signature d ≠ SignatureInternal →
  heap (final (Validate s (Some l) st)) = <[l := inherited par d]> (heap st).
Proof.
  intros Hd Hp Hq Hc Hv Hi.
  rewrite (Validate_inherit s l st d Hd Hv q par Hp Hq Hc Hi). cbv zeta.
  case_bool_decide; [reflexivity|]. apply preserves_Validate_policy.
Qed.

(** X9: validation in top-down order by a validator without a predicate
    hands the root's signature down a chain.  For a root, its child and the
    child's child (the child a different descriptor from the two others,
    the two descendants not core and with own statuses neither Valid nor
    Internal), validating the child and then the grandchild leaves both
    with the root's signature status, type and org, and everything else in
    the store as it was. *)
Theorem Validate_top_down s r c g st dr dc dg rc rg st1 st2 :
  allowUnsignedPluginsCondition s = None →
  r ≠ c → c ≠ g →
  heap st !! r = Some dr → heap st !! c = Some dc → heap st !! g = Some dg →
  Parent dc = Some r → Parent dg = Some c →
  isCore dc = false → Signature dc ≠ SignatureValid → Signature dc ≠ SignatureInternal →
  isCore dg = false → Signature dg ≠ SignatureValid → Signature dg ≠ SignatureInternal →
  Validate s (Some c) st = Done rc st1 →
  Validate s (Some g) st1 = Done rg st2 →
  heap st2 = <[g := inherited dr dg]> (<[c := inherited dr dc]> (heap st)).
Proof.
  intros _ Hrc Hcg Hr Hc Hg Hpc Hpg Hcc Hvc Hic Hcg' Hvg Hig Hrun1 Hrun2.
  pose proof (Validate_inherit_heap s c st dc r dr Hc Hpc Hr Hcc Hvc Hic) as Hh1.
  rewrite Hrun1 in Hh1. simpl in Hh1.
  assert (heap st1 !! g = Some dg) as Hg1.
  { rewrite Hh1, lookup_insert_ne by exact Hcg. exact Hg. }
  assert (heap st1 !! c = Some (inherited dr dc)) as Hc1.
  { rewrite Hh1. apply lookup_insert_eq. }
  pose proof (Validate_inherit_heap s g st1 dg c _ Hg1 Hpg Hc1 Hcg' Hvg Hig) as Hh2.
  rewrite Hrun2 in Hh2. simpl in Hh2. rewrite Hh2, Hh1. reflexivity.
Qed.

Lemma Validate_top_down_witness :
  ∃ st1 st2,
    Validate Samples.strict (Some 2%positive)
      (chain (Samples.root SignatureValid)
         (Samples.plugin "app" false false SignatureUnsigned (Some 1%positive))
         (Samples.plugin "panel" false false SignatureModified (Some 2%positive)))
    = Done None st1
    ∧ Validate Samples.strict (Some 3%positive) st1 = Done None st2
    ∧ heap st2 !! 3%positive
      = Some (mkPlugin "panel" "/var/lib/plugins/panel" false false
                SignatureValid "grafana" "Grafana Labs" (Some 2%positive)).
Proof.
  eexists _, _. split; [reflexivity|]. split; [reflexivity|].
  erewrite (Validate_top_down Samples.strict 1%positive 2%positive 3%positive
              (chain (Samples.root SignatureValid)
                 (Samples.plugin "app" false false SignatureUnsigned (Some 1%positive))
                 (Samples.plugin "panel" false false SignatureModified (Some 2%positive)))
              (Samples.root SignatureValid)
              (Samples.plugin "app" false false SignatureUnsigned (Some 1%positive))
              (Samples.plugin "panel" false false SignatureModified (Some 2%positive))
              None None);
    first [reflexivity | discriminate].
Defined.



Lemma warn_not_debug pre :
  Forall (λ e, log.level e = log.LvlDebug) pre → warn_unsigned ∉ pre.
Proof.
  intros Hall Hin. rewrite Forall_forall in Hall. specialize (Hall _ Hin). discriminate.
Qed.

(** X11: [Validate] only appends to the log, at most two lines per call.
    A line it appends is a debug line or the warning that an unsigned
    plugin is running, and it appends that warning exactly when it returns
    nil for a plugin that is neither core nor bundled and whose status
    after inheritance is Unsigned. *)
Theorem Validate_log s l st :
  ∃ new : list log.Entry,
    logs (final (Validate s (Some l) st)) = (logs st ++ new)%list
    ∧ (List.length new ≤ 2)%nat
    ∧ (∀ e, e ∈ new → e = warn_unsigned ∨ log.level e = log.LvlDebug)
    ∧ (warn_unsigned ∈ new
       ↔ returned (Validate s (Some l) st) = Some None
         ∧ ∃ d, heap (final (Validate s (Some l) st)) !! l = Some d
                ∧ Signature d = SignatureUnsigned
                ∧ isCore d = false ∧ isBundled d = false).
Proof.
  assert (∀ o : Outcome (option PluginSignatureError),
            final o = st → returned o = None →
            ∃ new : list log.Entry, logs (final o) = (logs st ++ new)%list
                   ∧ (List.length new ≤ 2)%nat
                   ∧ (∀ e, e ∈ new → e = warn_unsigned ∨ log.level e = log.LvlDebug)
                   ∧ (warn_unsigned ∈ new
                      ↔ returned o = Some None
                        ∧ ∃ d, heap (final o) !! l = Some d
                               ∧ Signature d = SignatureUnsigned
                               ∧ isCore d = false ∧ isBundled d = false)) as Hstop.
  { intros o -> Hr. exists []. rewrite app_nil_r, Hr.
    split; [reflexivity|]. split; [simpl; lia|].
    split; [intros e He; inversion He|].
    split; [intros He; inversion He | intros [? _]; discriminate]. }
  destruct (heap st !! l) as [d0|] eqn:Hd.
  2:{ rewrite (Validate_unallocated s l st Hd). apply Hstop; reflexivity. }
  destruct (Validate_resolution l st d0 Hd)
    as [(q & _ & _ & _ & _ & _ & Hrun)|(d' & pre & _ & Hpre & Hlen & Hrun)];
    rewrite (Hrun s); [apply Hstop; reflexivity|].
  clear Hstop Hrun.
  remember (mkState (<[l := d']> (heap st)) (logs st ++ pre)) as st' eqn:Est.
  assert (heap st' !! l = Some d') as Hd' by (subst st'; apply lookup_insert_eq).
  assert (logs st' = (logs st ++ pre)%list) as Hlg by (subst st'; reflexivity).
  clear Est.
  pose proof (warn_not_debug pre Hpre) as Hnw.
  assert (∀ e, e ∈ pre → e = warn_unsigned ∨ log.level e = log.LvlDebug) as Hdbg.
  { intros e He. right. rewrite Forall_forall in Hpre. auto. }
  assert (∀ o : Outcome (option PluginSignatureError),
            final o = st' →
            (returned o = Some None →
             ¬ (Signature d' = SignatureUnsigned
                ∧ isCore d' = false ∧ isBundled d' = false)) →
            ∃ new : list log.Entry,
              logs (final o) = (logs st ++ new)%list
              ∧ (List.length new ≤ 2)%nat
              ∧ (∀ e, e ∈ new → e = warn_unsigned ∨ log.level e = log.LvlDebug)
              ∧ (warn_unsigned ∈ new
                 ↔ returned o = Some None
                   ∧ ∃ d, heap (final o) !! l = Some d
                          ∧ Signature d = SignatureUnsigned
                          ∧ isCore d = false ∧ isBundled d = false)) as Hquiet.
  { intros o -> Hr. exists pre. split; [exact Hlg|].
    split; [destruct (bool_decide _) in Hlen; lia|]. split; [exact Hdbg|].
    split; [contradiction|]. intros (Hn & d & Hl & Hs & Hc & Hb).
    rewrite Hd' in Hl. injection Hl as <-. exfalso. apply (Hr Hn); auto. }
  case_bool_decide as Hv.
  { apply Hquiet; [reflexivity|]. intros _ [Hs _]. rewrite Hs in Hv. discriminate. }
  assert (∀ lv msg (r : option PluginSignatureError),
            (log.mkEntry lv msg = warn_unsigned
             ∧ r = None ∧ Signature d' = SignatureUnsigned
             ∧ isCore d' = false ∧ isBundled d' = false)
            ∨ (lv = log.LvlDebug ∧ r ≠ None) →
            ∃ new : list log.Entry,
              logs (final (Done r (logged st' lv msg))) = (logs st ++ new)%list
              ∧ (List.length new ≤ 2)%nat
              ∧ (∀ e, e ∈ new → e = warn_unsigned ∨ log.level e = log.LvlDebug)
              ∧ (warn_unsigned ∈ new
                 ↔ returned (Done r (logged st' lv msg)) = Some None
                   ∧ ∃ d, heap (final (Done r (logged st' lv msg))) !! l = Some d
                          ∧ Signature d = SignatureUnsigned
                          ∧ isCore d = false ∧ isBundled d = false)) as Hone.
  { intros lv msg r Hk. exists (pre ++ [log.mkEntry lv msg])%list.
    cbn [final returned logged logs heap]. rewrite Hlg, app_assoc.
    split; [reflexivity|]. split; [rewrite length_app; simpl; lia|]. split.
    - intros e [He|He%list_elem_of_singleton]%elem_of_app; [auto|].
      subst e. destruct Hk as [(-> & _)|(-> & _)]; auto.
    - rewrite elem_of_app, list_elem_of_singleton. split.
      + intros [?|He]; [contradiction|].
        destruct Hk as [(_ & -> & Hs & Hc & Hb)|(-> & _)]; [eauto 10|].
        discriminate He.
      + intros ([= ->] & _). destruct Hk as [(-> & _)|(_ & ?)]; [auto | congruence]. }
  unfold policy_outcome.
  destruct (isCore d') eqn:Hc, (isBundled d') eqn:Hb; cbn [orb];
    try (apply Hquiet; [reflexivity|]; intros _ (_ & ? & ?); discriminate).
  repeat case_bool_decide;
    try (destruct (allowance s l (heap st') d') as [[]|]);
    first
      [ apply Hone; first [left; auto 10; fail | right; split; [reflexivity | discriminate]]
      | apply Hquiet; [reflexivity|]; intros [=] ].
Qed.

(** Two validators that give the same answers on unsigned plugins run
    [Validate] alike. *)
Lemma Validate_allowance_ext s1 s2 l st :
  (∀ h d, allowance s1 l h d = allowance s2 l h d) →
  Validate s1 (Some l) st = Validate s2 (Some l) st.
Proof.
  intros Hext.
  assert (∀ st' d, policy_outcome s1 l st' d = policy_outcome s2 l st' d) as Hpol.
  { intros st' d. unfold policy_outcome. rewrite Hext. reflexivity. }
  rewrite !Validate_is_outcome. unfold Validate_outcome.
  destruct (heap st !! l) as [d|]; [|reflexivity].
  case_bool_decide; [reflexivity|].
  destruct (Parent d) as [q|]; [|apply Hpol].
  destruct (isCore d || bool_decide (Signature d = SignatureInternal)); [apply Hpol|].
  destruct (heap st !! q) as [par|]; [|reflexivity]. cbv zeta.
  case_bool_decide; [reflexivity | apply Hpol].
Qed.

(** X12: the allow-list counts as a set.  Two validators without a
    predicate, with the same environment mode and with allow-lists that
    hold the same IDs (in any order, with any repetitions), run [Validate]
    alike: same decision, same store, same log. *)
Theorem Validate_allow_list_as_set env ids1 ids2 l st :
  (∀ id, id ∈ ids1 ↔ id ∈ ids2) →
  Validate (NewValidator (Some (setting.mkCfg env ids1)) None) (Some l) st
  = Validate (NewValidator (Some (setting.mkCfg env ids2)) None) (Some l) st.
Proof.
  intros Hsame. apply Validate_allowance_ext. intros h d.
  unfold allowance. simpl. do 2 f_equal. apply bool_decide_ext, Hsame.
Qed.

Lemma Validate_allow_list_as_set_witness :
  Validate (NewValidator (Some (setting.mkCfg "production" ["a"; "b"; "a"])) None)
    (Some 1%positive)
    (Samples.single (Samples.plugin "b" false false SignatureUnsigned None))
  = Validate (NewValidator (Some (setting.mkCfg "production" ["b"; "a"])) None)
      (Some 1%positive)
      (Samples.single (Samples.plugin "b" false false SignatureUnsigned None)).
Proof.
  apply (Validate_allow_list_as_set "production" ["a"; "b"; "a"] ["b"; "a"] 1%positive).
  intros id. rewrite !elem_of_cons, !elem_of_nil. tauto.
Defined.

(** X13: the allow-list is monotone.  Without a predicate, a plugin that
    [Validate] allows under one allow-list is allowed under every
    allow-list that holds at least the same IDs, in the same environment
    mode. *)
Theorem Validate_allow_list_monotone env ids1 ids2 l st :
  ids1 ⊆ ids2 →
  returned (Validate (NewValidator (Some (setting.mkCfg env ids1)) None) (Some l) st)
  = Some None →
  returned (Validate (NewValidator (Some (setting.mkCfg env ids2)) None) (Some l) st)
  = Some None.
Proof.
  intros Hsub. destruct (heap st !! l) as [d|] eqn:Hd.
  2:{ rewrite !(Validate_unallocated _ l st Hd). auto. }
  destruct (Validate_resolution l st d Hd)
    as [(q & _ & _ & _ & _ & _ & Hrun)|(d' & pre & _ & _ & _ & Hrun)];
    rewrite !Hrun; [auto|].
  case_bool_decide; [auto|].
  unfold policy_outcome, allowance. simpl.
  destruct (isCore d' || isBundled d'); [auto|].
  repeat case_bool_decide; auto; simpl in *; try discriminate.
  exfalso. auto.
Qed.

Lemma Validate_allow_list_monotone_witness :
  returned (Validate (NewValidator (Some (setting.mkCfg "production" ["p0"; "p1"])) None)
              (Some 1%positive)
              (Samples.single (Samples.plugin "p1" false false SignatureUnsigned None)))
  = Some None.
Proof.
  apply (Validate_allow_list_monotone "production" ["p1"] ["p0"; "p1"] 1%positive).
  - intros id Hid. apply elem_of_cons. right. exact Hid.
  - reflexivity.
Defined.


